(** * Browser-VNC-Docker: the account registry and the lifecycle supervisor

    A shallow embedding of [app/common/accounts.py], of the account
    endpoints of [app/admin/app.py] and of [app/scripts/start_autostart.py],
    with the properties of the account store (versioned updates, loading,
    creation, deletion), of the profile provisioner and of the supervisor.

    Python values are dynamically typed: an account is a [dict] whose
    entries come from an unvalidated JSON file, so the embedding keeps a
    universe of JSON values and raises the exceptions Python raises when a
    value has the wrong shape.  Floating point numbers are left out of the
    universe.  The file system, the process table and the installed
    executables form an explicit [World] that every effectful function
    threads through. *)

From stdpp Require Import gmap strings list fin_maps.
From Stdlib Require Import ZArith Ascii DecimalString DecimalZ DecimalPos.

(** ** Python values *)

Module Py.

#[warnings="-register-all"]
Inductive value : Type :=
| VNone
| VBool (b : bool)
| VInt (z : Z)
| VStr (s : string)
| VList (l : list value)
| VDict (d : gmap string value).

Abbreviation dict := (gmap string value).

(** Exceptions that the modelled code can raise.  [ValidationError] is the
    class of accounts.py, with its message and its numeric code. *)
Inductive exn : Type :=
| ValidationError (message : string) (code : Z)
| KeyError (key : string)
| TypeError
| AttributeError
| FileExistsError (path : string)
| FileNotFoundError (path : string)
| IsADirectoryError (path : string).

Inductive result (A : Type) : Type :=
| Ok (a : A)
| Raise (e : exn).
Arguments Ok {A} a.
Arguments Raise {A} e.

Definition rbind {A B} (m : result A) (k : A → result B) : result B :=
  match m with
  | Ok a => k a
  | Raise e => Raise e
  end.

Notation "'let?' x := m 'in' k" := (rbind m (fun x => k))
  (at level 10, x name, m at level 100, k at level 200).

Definition is_ok {A} (r : result A) : bool :=
  match r with Ok _ => true | Raise _ => false end.

(** [bool] is a subclass of [int]: [isinstance(True, int)] holds and
    [True == 1]. *)
Definition Z_of_bool (b : bool) : Z := if b then 1%Z else 0%Z.

Definition as_int (v : value) : option Z :=
  match v with
  | VInt z => Some z
  | VBool b => Some (Z_of_bool b)
  | _ => None
  end.

Definition isinstance_int (v : value) : bool :=
  match v with VInt _ | VBool _ => true | _ => false end.
Definition isinstance_bool (v : value) : bool :=
  match v with VBool _ => true | _ => false end.
Definition isinstance_str (v : value) : bool :=
  match v with VStr _ => true | _ => false end.
Definition isinstance_dict (v : value) : bool :=
  match v with VDict _ => true | _ => false end.

(** [a == b] *)
Fixpoint py_eq (a b : value) : bool :=
  match a, b with
  | VNone, VNone => true
  | VStr s, VStr t => bool_decide (s = t)
  | (VInt _ | VBool _), (VInt _ | VBool _) => bool_decide (as_int a = as_int b)
  | VList l1, VList l2 =>
      (fix go (l1 l2 : list value) : bool :=
         match l1, l2 with
         | [], [] => true
         | x :: xs, y :: ys => py_eq x y && go xs ys
         | _, _ => false
         end) l1 l2
  | VDict d1, VDict d2 =>
      bool_decide (dom d1 = dom d2) &&
      map_fold (fun k v acc =>
                  acc && match d2 !! k with
                         | Some v' => py_eq v v'
                         | None => false
                         end) true d1
  | _, _ => false
  end.

(** [a != b] *)
Definition py_ne (a b : value) : bool := negb (py_eq a b).

(** [bool(v)] *)
Definition truthy (v : value) : bool :=
  match v with
  | VNone => false
  | VBool b => b
  | VInt z => negb (Z.eqb z 0)
  | VStr s => negb (bool_decide (s = ""))
  | VList l => negb (Nat.eqb (length l) 0)
  | VDict d => negb (Nat.eqb (size d) 0)
  end.

(** [a or b] *)
Definition py_or (a b : value) : value := if truthy a then a else b.

(** [k in d], [d.get(k)], [d.get(k, dflt)] and [d[k]] on a dict. *)
Definition has_key (d : dict) (k : string) : bool := bool_decide (is_Some (d !! k)).
Definition get (d : dict) (k : string) : value := default VNone (d !! k).
Definition get_or (d : dict) (k : string) (dflt : value) : value := default dflt (d !! k).
Definition getitem (d : dict) (k : string) : result value :=
  match d !! k with
  | Some v => Ok v
  | None => Raise (KeyError k)
  end.

(** [v + n] for an int [n]: defined on ints and bools only. *)
Definition add_int (v : value) (n : Z) : result value :=
  match as_int v with
  | Some z => Ok (VInt (z + n))
  | None => Raise TypeError
  end.

(** [str(z)] for an int. *)
Definition str_of_int (z : Z) : string := NilZero.string_of_int (Z.to_int z).

(** [key in container] and [container[key]] for a string key and a
    container of any type, as write_user_js applies them to the stored
    proxy value. *)
Fixpoint is_infix (p s : string) : bool :=
  String.prefix p s ||
  match s with
  | EmptyString => false
  | String _ s' => is_infix p s'
  end.

Definition contains (container : value) (key : string) : result bool :=
  match container with
  | VDict d => Ok (has_key d key)
  | VList l => Ok (existsb (fun x => py_eq x (VStr key)) l)
  | VStr s => Ok (is_infix key s)
  | _ => Raise TypeError
  end.

Definition subscript (container : value) (key : string) : result value :=
  match container with
  | VDict d => getitem d key
  | _ => Raise TypeError
  end.

(** [for item in v]: the items a value yields when iterated.  A dict
    yields its keys and a str its characters. *)
Definition iterate (v : value) : result (list value) :=
  match v with
  | VList l => Ok l
  | VDict d => Ok (VStr <$> (map_to_list d).*1)
  | VStr s => Ok ((fun c => VStr (String c EmptyString)) <$> String.list_ascii_of_string s)
  | _ => Raise TypeError
  end.

(** [item.get(k)] on a value of any type: only a dict has the method. *)
Definition get_attr (item : value) (k : string) : result value :=
  match item with
  | VDict d => Ok (get d k)
  | _ => Raise AttributeError
  end.

End Py.
Export Py.

(** ** The platform: environment variables and library functions

    What accounts.py takes from its environment and from the Python
    library without defining it: the [DATA_DIR] variable, the Unicode-aware
    string methods, [json.dumps] as used for one preference value, and the
    way [pgrep -f] matches a pattern against a command line. *)

Class Platform := {
  DATA_DIR : string;
  str_strip : string → string;
  str_len : string → Z;
  str_lower : string → string;
  json_dumps : value → string;
  cmdline_matches : string → string → bool
}.

(** [os.path.join(a, b)] of posixpath. *)
Fixpoint endswith_sep (a : string) : bool :=
  match a with
  | EmptyString => false
  | String c EmptyString => bool_decide (c = "/"%char)
  | String _ a' => endswith_sep a'
  end.

Definition path_join (a b : string) : string :=
  if String.prefix "/" b then b
  else if bool_decide (a = EmptyString) || endswith_sep a then a +:+ b
  else a +:+ "/" +:+ b.

(** [p.split("/")] *)
Fixpoint path_components (p : string) : list string :=
  match p with
  | EmptyString => [EmptyString]
  | String c p' =>
      if bool_decide (c = "/"%char) then EmptyString :: path_components p'
      else match path_components p' with
           | h :: t => String c h :: t
           | [] => [String c EmptyString]
           end
  end.

(** ** The world

    A file holds either the serialization of a JSON value or text that
    [json.load] rejects.  Directories are a flat set of paths: a path
    cannot be created as a directory while a regular file stands there,
    and the parent of a written file is not looked at (every write of
    accounts.py follows the makedirs of its parent).  The process table
    lists the command line of each live process, as [pgrep -f] reads it;
    a spawned process stays in it.  [executables] are the programs that
    [subprocess] finds.  [effects] records, in order, every write, removal
    and spawn that has been performed. *)

Inductive file_data : Type :=
| Json (v : value)
| Raw (text : string).

Inductive effect : Type :=
| EWrite (path : string) (data : file_data)
| ERmtree (path : string)
| ESpawn (cmd : list string).

Record World := mkWorld {
  files : gmap string file_data;
  dirs : gset string;
  executables : gset string;
  procs : list string;
  effects : list effect
}.

Definition io (A : Type) : Type := World → World * result A.

Definition ret {A} (a : A) : io A := fun w => (w, Ok a).
Definition raise {A} (e : exn) : io A := fun w => (w, Raise e).
Definition lift {A} (r : result A) : io A := fun w => (w, r).
Definition bind {A B} (m : io A) (k : A → io B) : io B :=
  fun w => match m w with
           | (w', Ok a) => k a w'
           | (w', Raise e) => (w', Raise e)
           end.

Notation "'let*' x := m 'in' k" := (bind m (fun x => k))
  (at level 10, x name, m at level 100, k at level 200).
Notation "m ;; k" := (bind m (fun _ => k))
  (at level 100, k at level 200, right associativity).

(** A path argument must be a [str]. *)
Definition as_str (v : value) : result string :=
  match v with
  | VStr s => Ok s
  | _ => Raise TypeError
  end.

(** [os.makedirs(path, exist_ok=True)] *)
Definition makedirs (path : string) : io unit := fun w =>
  if bool_decide (path = EmptyString) then (w, Raise (FileNotFoundError path))
  else if bool_decide (is_Some (files w !! path)) then (w, Raise (FileExistsError path))
  else (mkWorld (files w) ({[path]} ∪ dirs w) (executables w) (procs w) (effects w), Ok ()).

(** [os.path.exists(path)] *)
Definition path_exists (path : string) : io bool := fun w =>
  (w, Ok (bool_decide (path ∈ dirs w) || bool_decide (is_Some (files w !! path)))).

(** [open(path, "w")] followed by writing [data] and closing. *)
Definition write_file (path : string) (data : file_data) : io unit := fun w =>
  if bool_decide (path ∈ dirs w) then (w, Raise (IsADirectoryError path))
  else (mkWorld (<[path := data]> (files w)) (dirs w) (executables w) (procs w)
                (effects w ++ [EWrite path data]), Ok ()).

(** [open(path, "r")] and reading the whole file. *)
Definition read_file (path : string) : io file_data := fun w =>
  match files w !! path with
  | Some d => (w, Ok d)
  | None =>
      if bool_decide (path ∈ dirs w) then (w, Raise (IsADirectoryError path))
      else (w, Raise (FileNotFoundError path))
  end.

(** [open(path, "a")]: the file is created empty when it is missing. *)
Definition open_append (path : string) : io unit := fun w =>
  if bool_decide (path ∈ dirs w) then (w, Raise (IsADirectoryError path))
  else match files w !! path with
       | Some _ => (w, Ok ())
       | None => (mkWorld (<[path := Raw EmptyString]> (files w)) (dirs w) (executables w)
                          (procs w) (effects w), Ok ())
       end.

(** [shutil.rmtree(path, ignore_errors=True)]: the directory and all that
    lies under it go; on anything that is not a directory nothing happens. *)
Definition under (path k : string) : bool :=
  bool_decide (k = path) || String.prefix (path +:+ "/") k.

Definition rmtree (path : string) : io unit := fun w =>
  if bool_decide (path ∈ dirs w) then
    (mkWorld (filter (fun kv => under path kv.1 = false) (files w))
             (filter (fun k => under path k = false) (dirs w))
             (executables w) (procs w) (effects w ++ [ERmtree path]), Ok ())
  else (w, Ok ()).

(** [subprocess.run([exe, "-f", pattern])] for pgrep: exit status 0 iff
    some command line of the process table matches. *)
Definition pgrep `{Platform} (pattern : string) : io bool := fun w =>
  if bool_decide ("pgrep" ∈ executables w)
  then (w, Ok (existsb (cmdline_matches pattern) (procs w)))
  else (w, Raise (FileNotFoundError "pgrep")).

(** [subprocess.Popen(cmd, ...)]: every argument must be a [str], the
    executable must be found, and the child enters the process table with
    its arguments joined by spaces. *)
Definition cmdline (args : list string) : string := String.concat " " args.

Fixpoint all_str (cmd : list value) : result (list string) :=
  match cmd with
  | [] => Ok []
  | v :: rest =>
      let? s := as_str v in
      let? ss := all_str rest in
      Ok (s :: ss)
  end.

Definition popen (cmd : list value) : io unit := fun w =>
  match all_str cmd with
  | Raise e => (w, Raise e)
  | Ok args =>
      match args with
      | exe :: _ =>
          if bool_decide (exe ∈ executables w) then
            (mkWorld (files w) (dirs w) (executables w) (procs w ++ [cmdline args])
                     (effects w ++ [ESpawn args]), Ok ())
          else (w, Raise (FileNotFoundError exe))
      | [] => (w, Raise (FileNotFoundError EmptyString))
      end
  end.

(** What [pkill -f] does to a process table is not decided by the code
    that calls it: whether its exit status is 0, and which processes the
    table holds once it has returned. *)
Class Signals := {
  pkill_f : string → list string → bool * list string
}.

(** [subprocess.run(["pkill", "-f", pattern])]: [true] for exit status 0. *)
Definition pkill `{Signals} (pattern : string) : io bool := fun w =>
  if bool_decide ("pkill" ∈ executables w)
  then (mkWorld (files w) (dirs w) (executables w) (pkill_f pattern (procs w)).2 (effects w),
        Ok (pkill_f pattern (procs w)).1)
  else (w, Raise (FileNotFoundError "pkill")).

(** ** app/common/accounts.py *)

Module accounts.
Section accounts.
Context `{Platform}.

Definition PROFILES_DIR : string := path_join DATA_DIR "profiles".
Definition LOG_DIR : string := path_join DATA_DIR "logs".
Definition ACCOUNTS_FILE : string := path_join DATA_DIR "accounts.json".
Definition LAUNCHER_LOG : string := path_join LOG_DIR "launcher.log".

(** [ValidationError(message)] has the default code 1001. *)
Definition invalid {A} (message : string) : result A :=
  Raise (ValidationError message 1001).

Definition ensure_data_dirs : io unit :=
  makedirs DATA_DIR ;;
  makedirs PROFILES_DIR ;;
  makedirs LOG_DIR ;;
  let* present := path_exists ACCOUNTS_FILE in
  if present then ret ()
  else write_file ACCOUNTS_FILE (Json (VList [])).

(** [json.load(f)] raises [JSONDecodeError] on text that is not JSON; the
    handler in load_accounts turns it into [ValidationError] 1006. *)
Definition load_accounts : io value :=
  ensure_data_dirs ;;
  let* content := read_file ACCOUNTS_FILE in
  match content with
  | Json data => ret data
  | Raw _ => raise (ValidationError "accounts.json is not valid JSON" 1006)
  end.

Definition save_accounts (accounts : value) : io unit :=
  ensure_data_dirs ;;
  write_file ACCOUNTS_FILE (Json accounts).

(** [secrets.token_hex(3)]: three random bytes as six lowercase hex digits. *)
Definition hex_digit (n : N) : ascii :=
  default "0"%char (String.get (N.to_nat n) "0123456789abcdef").

Definition hex_of_byte (b : Byte.byte) : string :=
  let n := Byte.to_N b in
  String (hex_digit (n / 16)) (String (hex_digit (n mod 16)) EmptyString).

Definition token_hex3 (entropy : Byte.byte * Byte.byte * Byte.byte) : string :=
  let '(b0, b1, b2) := entropy in
  hex_of_byte b0 +:+ hex_of_byte b1 +:+ hex_of_byte b2.

(** The clock reading [int(time.time() * 1000)] and the random bytes are
    inputs. *)
Definition generate_account_id (ts : Z) (entropy : Byte.byte * Byte.byte * Byte.byte) : string :=
  "acc-" +:+ str_of_int ts +:+ "-" +:+ token_hex3 entropy.

Definition _validate_proxy_obj (proxy_obj : value) (prefix : string) : result value :=
  match proxy_obj with
  | VDict proxy_obj =>
      let host := get proxy_obj "host" in
      let port := get proxy_obj "port" in
      let? host :=
        match host with
        | VStr h => if bool_decide (str_strip h = EmptyString)
                    then invalid (prefix +:+ ".host is required") else Ok h
        | _ => invalid (prefix +:+ ".host is required")
        end in
      let? _ :=
        match as_int port with
        | Some p => if (1 <=? p)%Z && (p <=? 65535)%Z then Ok ()
                    else invalid (prefix +:+ ".port must be between 1 and 65535")
        | None => invalid (prefix +:+ ".port must be between 1 and 65535")
        end in
      let username := get proxy_obj "username" in
      let password := get proxy_obj "password" in
      let? _ := match username with
                | VNone | VStr _ => Ok ()
                | _ => invalid (prefix +:+ ".username must be string")
                end in
      let? _ := match password with
                | VNone | VStr _ => Ok ()
                | _ => invalid (prefix +:+ ".password must be string")
                end in
      let? _ := match username with
                | VStr u => if (256 <? str_len u)%Z
                            then invalid (prefix +:+ ".username too long") else Ok ()
                | _ => Ok ()
                end in
      let? _ := match password with
                | VStr p => if (256 <? str_len p)%Z
                            then invalid (prefix +:+ ".password too long") else Ok ()
                | _ => Ok ()
                end in
      Ok (VDict (<["host" := VStr (str_strip host)]>
                (<["port" := port]>
                (<["username" := match username with VNone => VStr EmptyString | u => u end]>
                (<["password" := match password with VNone => VStr EmptyString | p => p end]>
                 ∅)))))
  | _ => invalid (prefix +:+ " must be object")
  end.

Definition PROXY_KEYS : list string := ["http"; "https"; "socks5"].

Fixpoint validate_proxy_keys (proxy : dict) (keys : list string) (res : dict) : result dict :=
  match keys with
  | [] => Ok res
  | key :: rest =>
      match proxy !! key with
      | None | Some VNone => validate_proxy_keys proxy rest res
      | Some obj =>
          let? cleaned := _validate_proxy_obj obj ("proxy." +:+ key) in
          validate_proxy_keys proxy rest (<[key := cleaned]> res)
      end
  end.

Definition validate_proxy (proxy : value) : result value :=
  match proxy with
  | VNone => Ok (VDict ∅)
  | VDict proxy =>
      let? res := validate_proxy_keys proxy PROXY_KEYS ∅ in
      Ok (VDict res)
  | _ => invalid "proxy must be object"
  end.

Definition validate_account_payload (data : value) (partial : bool) : result dict :=
  match data with
  | VDict data =>
      let cleaned : dict := ∅ in
      let? cleaned :=
        if has_key data "name" || negb partial then
          match get data "name" with
          | VStr name =>
              if bool_decide (str_strip name = EmptyString) then invalid "name is required"
              else if (128 <? str_len name)%Z then invalid "name too long"
              else Ok (<["name" := VStr (str_strip name)]> cleaned)
          | _ => invalid "name is required"
          end
        else Ok cleaned in
      let? cleaned :=
        if has_key data "proxy" then
          let? proxy := validate_proxy (get data "proxy") in
          Ok (<["proxy" := proxy]> cleaned)
        else Ok cleaned in
      let autostart := get data "autostart" in
      let? cleaned :=
        if has_key data "autostart" then
          if isinstance_bool autostart then Ok (<["autostart" := autostart]> cleaned)
          else invalid "autostart must be boolean"
        else if negb partial then Ok (<["autostart" := VBool false]> cleaned)
        else Ok cleaned in
      let? cleaned :=
        if has_key data "default_url" then
          let? default_url :=
            match get data "default_url" with
            | VNone => Ok VNone
            | VStr url =>
                let url := str_strip url in
                if negb (bool_decide (url = EmptyString))
                   && negb (String.prefix "http://" (str_lower url)
                            || String.prefix "https://" (str_lower url))
                then invalid "default_url must start with http or https"
                else Ok (VStr url)
            | _ => invalid "default_url must be string"
            end in
          Ok (<["default_url" := py_or default_url (VStr EmptyString)]> cleaned)
        else if negb partial then Ok (<["default_url" := VStr EmptyString]> cleaned)
        else Ok cleaned in
      let? cleaned :=
        if has_key data "notes" then
          let notes := get data "notes" in
          let? _ := match notes with
                    | VNone | VStr _ => Ok ()
                    | _ => invalid "notes must be string"
                    end in
          let? _ := match notes with
                    | VStr n => if (1024 <? str_len n)%Z then invalid "notes too long" else Ok ()
                    | _ => Ok ()
                    end in
          Ok (<["notes" := py_or notes (VStr EmptyString)]> cleaned)
        else if negb partial then Ok (<["notes" := VStr EmptyString]> cleaned)
        else Ok cleaned in
      let? cleaned :=
        if has_key data "version" then
          let version := get data "version" in
          if isinstance_int version then Ok (<["version" := version]> cleaned)
          else invalid "version must be int"
        else Ok cleaned in
      Ok cleaned
  | _ => invalid "payload must be object"
  end.

Definition build_account (ts : Z) (entropy : Byte.byte * Byte.byte * Byte.byte)
    (cleaned : dict) : result dict :=
  let account_id := generate_account_id ts entropy in
  let profile_dir := path_join PROFILES_DIR account_id in
  let? name := getitem cleaned "name" in
  Ok (<["id" := VStr account_id]>
     (<["name" := name]>
     (<["profile_dir" := VStr profile_dir]>
     (<["proxy" := get_or cleaned "proxy" (VDict ∅)]>
     (<["autostart" := get_or cleaned "autostart" (VBool false)]>
     (<["default_url" := get_or cleaned "default_url" (VStr EmptyString)]>
     (<["notes" := get_or cleaned "notes" (VStr EmptyString)]>
     (<["version" := VInt 1]> ∅)))))))).

(** update_account_obj mutates [account] in place: the function returns
    the state of the dict after the call together with the outcome, so
    that what an exception leaves behind stays visible. *)
Definition MERGE_KEYS : list string :=
  ["name"; "proxy"; "autostart"; "default_url"; "notes"].

Definition merge_key (cleaned account : dict) (key : string) : dict :=
  match cleaned !! key with
  | Some v => <[key := v]> account
  | None => account
  end.

Definition version_conflict (account cleaned : dict) (check_version : bool) : bool :=
  check_version &&
  match cleaned !! "version" with
  | Some v => py_ne (get account "version") v
  | None => false
  end.

Definition update_account_obj (account cleaned : dict) (check_version : bool)
    : dict * result unit :=
  if version_conflict account cleaned check_version
  then (account, Raise (ValidationError "version conflict" 1007))
  else
    let account := foldl (merge_key cleaned) account MERGE_KEYS in
    match add_int (get_or account "version" (VInt 1)) 1 with
    | Ok v => (<["version" := v]> account, Ok ())
    | Raise e => (account, Raise e)
    end.

(** find_account returns a reference to the matching item of the list;
    the callers mutate it in place and then save the list.  The reference
    is the position of the item, returned with the dict found there. *)
Fixpoint find_in (items : list value) (account_id : string) (pos : nat)
    : result (option (nat * dict)) :=
  match items with
  | [] => Ok None
  | item :: rest =>
      let? item_id := get_attr item "id" in
      if py_eq item_id (VStr account_id)
      then match item with
           | VDict d => Ok (Some (pos, d))
           | _ => Raise AttributeError
           end
      else find_in rest account_id (S pos)
  end.

Definition find_account (accounts : value) (account_id : string)
    : result (option (nat * dict)) :=
  let? items := iterate accounts in
  find_in items account_id 0.

(** The preference lines of user.js.  [user_js_prefs] is the sequence of
    [(key, value)] arguments that write_user_js hands to [_user_pref], in
    order; [_user_pref] renders one of them. *)
Definition dquote : string := String "034"%char EmptyString.
Definition newline : string := String "010"%char EmptyString.

Definition _user_pref (key : string) (v : value) : string :=
  let val :=
    match v with
    | VBool b => if b then "true" else "false"
    | VInt z => str_of_int z
    | _ => json_dumps v
    end in
  "user_pref(" +:+ dquote +:+ key +:+ dquote +:+ ", " +:+ val +:+ ");".

Definition host_port (entry : value) (key : string) : result (list (string * value)) :=
  let? host := subscript entry "host" in
  let? port := subscript entry "port" in
  Ok [(key, host); (key +:+ "_port", port)].

Definition user_js_prefs (proxy : value) : result (list (string * value)) :=
  if truthy proxy then
    let lines := [("network.proxy.type", VInt 1);
                  ("network.proxy.no_proxies_on", VStr EmptyString)] in
    let? has_http := contains proxy "http" in
    let? lines :=
      if has_http then
        let? http := subscript proxy "http" in
        let? more := host_port http "network.proxy.http" in
        Ok (lines ++ more)
      else Ok lines in
    let? has_https := contains proxy "https" in
    let? lines :=
      if has_https then
        let? https := subscript proxy "https" in
        let? more := host_port https "network.proxy.ssl" in
        Ok (lines ++ more)
      else
        let? has_http := contains proxy "http" in
        if has_http then
          let? http := subscript proxy "http" in
          let? more := host_port http "network.proxy.ssl" in
          Ok (lines ++ more)
        else Ok lines in
    let? has_socks := contains proxy "socks5" in
    if has_socks then
      let? socks := subscript proxy "socks5" in
      let? more := host_port socks "network.proxy.socks" in
      Ok (lines ++ more ++ [("network.proxy.socks_version", VInt 5);
                            ("network.proxy.socks_remote_dns", VBool true)])
    else Ok lines
  else
    Ok [("network.proxy.type", VInt 0);
        ("network.proxy.no_proxies_on", VStr EmptyString)].

Definition user_js_text (prefs : list (string * value)) : string :=
  "// Generated by launcher, do not edit" +:+ newline +:+
  String.concat EmptyString ((fun kv => _user_pref kv.1 kv.2 +:+ newline) <$> prefs).

Definition write_user_js (account : dict) : io unit :=
  let* profile_dir := lift (getitem account "profile_dir") in
  let* profile_dir := lift (as_str profile_dir) in
  makedirs profile_dir ;;
  let proxy := py_or (get account "proxy") (VDict ∅) in
  let* prefs := lift (user_js_prefs proxy) in
  let user_js_path := path_join profile_dir "user.js" in
  write_file user_js_path (Raw (user_js_text prefs)).

Definition ensure_profile (account : dict) : io unit :=
  let* profile_dir := lift (getitem account "profile_dir") in
  let* profile_dir := lift (as_str profile_dir) in
  makedirs profile_dir ;;
  write_user_js account.

Definition _log_file : io unit :=
  makedirs LOG_DIR ;;
  open_append LAUNCHER_LOG.

Definition is_running (profile_dir : string) : io bool :=
  pgrep profile_dir.

(** The command line that start_account builds. *)
Definition launch_cmd (account : dict) (profile_dir : value) : list value :=
  let cmd := [VStr "firefox-esr"; VStr "--no-remote"; VStr "--profile"; profile_dir] in
  if truthy (get account "default_url")
  then cmd ++ [get account "default_url"] else cmd.

(** The outcome of start_account is the pair [(started, status)]. *)
Definition start_account (account : dict) : io (bool * string) :=
  ensure_profile account ;;
  let* profile_dir := lift (getitem account "profile_dir") in
  let* pattern := lift (as_str profile_dir) in
  let* running := is_running pattern in
  if running then ret (false, "already_running")
  else
    let cmd := launch_cmd account profile_dir in
    _log_file ;;
    popen cmd ;;
    ret (true, "started").

Definition delete_profile_dir (path : string) : io unit :=
  let* present := path_exists path in
  if present then rmtree path else ret ().

End accounts.

Section stopping.
Context `{Platform} `{Signals}.

(** The outcome of stop_account is the pair [(stopped, status)]. *)
Definition stop_account (account : dict) : io (bool * string) :=
  let* profile_dir := lift (getitem account "profile_dir") in
  let* pattern := lift (as_str profile_dir) in
  let* running := is_running pattern in
  if negb running then ret (false, "already_stopped")
  else
    let* profile_dir := lift (getitem account "profile_dir") in
    let* pattern := lift (as_str profile_dir) in
    let* killed := pkill pattern in
    if killed then
      (* the log line reads account["id"] *)
      lift (getitem account "id") ;;
      ret (true, "stopped")
    else ret (false, "stop_failed").

End stopping.
End accounts.

(** ** app/admin/app.py: the account endpoints *)

Module app.
Section app.
Context `{Platform}.

Record response := api_response {
  code : Z;
  message : string;
  data : value;
  http_status : Z
}.

Definition ok_response (d : value) : response := api_response 0 "ok" d 200.

Definition not_found : response := api_response 1002 "account not found" VNone 404.

(** The handler registered for [accounts.ValidationError]; any other
    exception leaves the view function. *)
Definition handle_validation_error (view : io response) : io response := fun w =>
  match view w with
  | (w', Raise (ValidationError msg c)) =>
      let status := if (c =? 1001)%Z then 400%Z
                    else if (c =? 1007)%Z then 409%Z else 500%Z in
      (w', Ok (api_response c msg VNone status))
  | other => other
  end.

Definition serialize_account (acc_obj : dict) (with_running : bool) : io dict :=
  if with_running then
    let* profile_dir := lift (getitem acc_obj "profile_dir") in
    let* pattern := lift (as_str profile_dir) in
    let* running := accounts.is_running pattern in
    ret (<["running" := VBool running]> acc_obj)
  else ret acc_obj.

Definition get_accounts : io value := accounts.load_accounts.

(** [items[pos]] has been mutated in place into [d]. *)
Definition store_item (items : value) (pos : nat) (d : dict) : value :=
  match items with
  | VList l => VList (<[pos := VDict d]> l)
  | other => other
  end.

Definition get_account (account_id : string) : io response :=
  handle_validation_error (
    let* accs := get_accounts in
    let* target := lift (accounts.find_account accs account_id) in
    match target with
    | Some (_, target) =>
        if truthy (VDict target) then
          let* ser := serialize_account target true in
          ret (ok_response (VDict {["account" := VDict ser]}))
        else ret not_found
    | None => ret not_found
    end).

(** [items.append(new_account)] *)
Definition append_item (items : value) (d : dict) : result value :=
  match items with
  | VList l => Ok (VList (l ++ [VDict d]))
  | _ => Raise AttributeError
  end.

Definition create_account (body : value) (ts : Z)
    (entropy : Byte.byte * Byte.byte * Byte.byte) : io response :=
  handle_validation_error (
    let payload := py_or body (VDict ∅) in
    let* cleaned := lift (accounts.validate_account_payload payload false) in
    let* new_account := lift (accounts.build_account ts entropy cleaned) in
    let* items := get_accounts in
    let* items := lift (append_item items new_account) in
    accounts.save_accounts items ;;
    accounts.ensure_profile new_account ;;
    let* ser := serialize_account new_account false in
    ret (ok_response (VDict {["account" := VDict ser]}))).

Definition update_account (account_id : string) (body : value) : io response :=
  handle_validation_error (
    let payload := py_or body (VDict ∅) in
    let* cleaned := lift (accounts.validate_account_payload payload true) in
    let* items := get_accounts in
    let* target := lift (accounts.find_account items account_id) in
    match target with
    | Some (pos, target) =>
        if truthy (VDict target) then
          match accounts.update_account_obj target cleaned (has_key cleaned "version") with
          | (target, Raise (ValidationError msg c)) =>
              if (c =? 1007)%Z then
                ret (api_response 1007 "version conflict"
                       (VDict (<["expected_version" := get cleaned "version"]>
                               {["actual_version" := get target "version"]}))
                       409)
              else raise (ValidationError msg c)
          | (_, Raise e) => raise e
          | (updated, Ok _) =>
              accounts.save_accounts (store_item items pos updated) ;;
              accounts.ensure_profile updated ;;
              let* ser := serialize_account updated true in
              ret (ok_response (VDict {["account" := VDict ser]}))
          end
        else ret not_found
    | None => ret not_found
    end).

(** [[a for a in items if a.get("id") != account_id]] *)
Fixpoint without_id (items : list value) (account_id : string) : result (list value) :=
  match items with
  | [] => Ok []
  | a :: rest =>
      let? a_id := get_attr a "id" in
      let? kept := without_id rest account_id in
      Ok (if py_ne a_id (VStr account_id) then a :: kept else kept)
  end.

(** [arg] is the query argument [delete_profile], when the request has
    one.  A stored [profile_dir] that is not a [str] is taken to raise
    [TypeError] when it reaches the file system. *)
Definition delete_account (account_id : string) (arg : option string) : io response :=
  handle_validation_error (
    let delete_profile := bool_decide (str_lower (default "false" arg) = "true") in
    let* items := get_accounts in
    let* target := lift (accounts.find_account items account_id) in
    let found := match target with
                 | Some (_, target) => truthy (VDict target)
                 | None => false
                 end in
    let* profile_path :=
      match target with
      | Some (_, target) =>
          if truthy (VDict target) then
            let* listed := lift (iterate items) in
            let* kept := lift (without_id listed account_id) in
            accounts.save_accounts (VList kept) ;;
            ret (get target "profile_dir")
          else
            accounts.save_accounts items ;;
            ret (VStr (path_join accounts.PROFILES_DIR account_id))
      | None =>
          accounts.save_accounts items ;;
          ret (VStr (path_join accounts.PROFILES_DIR account_id))
      end in
    (if delete_profile then
       let* path := lift (as_str profile_path) in
       accounts.delete_profile_dir path
     else ret ()) ;;
    let outcome := if found then "deleted" else "already_deleted" in
    ret (ok_response (VDict (<["result" := VStr outcome]>
                             {["delete_profile" := VBool delete_profile]})))).

(** The view catches every exception of accounts.start_account and
    answers with code 1008. *)
Definition start_account (account_id : string) : io response :=
  handle_validation_error (
    let* items := get_accounts in
    let* target := lift (accounts.find_account items account_id) in
    match target with
    | Some (_, target) =>
        if truthy (VDict target) then
          fun w =>
            match accounts.start_account target w with
            | (w', Ok (_, status)) =>
                (w', Ok (ok_response (VDict {["status" := VStr status]})))
            | (w', Raise _) =>
                (w', Ok (api_response 1008 "failed to launch browser"
                           (VDict {["account_id" := VStr account_id]}) 500))
            end
        else ret not_found
    | None => ret not_found
    end).

(** The loop of start_all_autostart; start_autostart.py runs the same
    loop, sleeping after each account.  [started] and [already] are the
    two lists being accumulated. *)
Fixpoint autostart_loop (items : list value) (started already : list value)
    : io (list value * list value) :=
  match items with
  | [] => ret (started, already)
  | acc :: rest =>
      let* flag := lift (get_attr acc "autostart") in
      if negb (truthy flag) then autostart_loop rest started already
      else
        match acc with
        | VDict acc =>
            let* outcome := accounts.start_account acc in
            let* acc_id := lift (getitem acc "id") in
            if bool_decide (outcome.2 = "started")
            then autostart_loop rest (started ++ [acc_id]) already
            else autostart_loop rest started (already ++ [acc_id])
        | _ => raise AttributeError
        end
  end.

Definition start_all_autostart : io response :=
  handle_validation_error (
    let* items := get_accounts in
    let* items := lift (iterate items) in
    let* lists := autostart_loop items [] [] in
    ret (ok_response (VDict (<["started" := VList lists.1]>
                             {["already_running" := VList lists.2]})))).

End app.

Section stopping.
Context `{Platform} `{Signals}.

(** The view does not catch what accounts.stop_account raises. *)
Definition stop_account (account_id : string) : io response :=
  handle_validation_error (
    let* items := get_accounts in
    let* target := lift (accounts.find_account items account_id) in
    match target with
    | Some (_, target) =>
        if truthy (VDict target) then
          let* outcome := accounts.stop_account target in
          if bool_decide (outcome.2 = "stop_failed")
          then ret (api_response 1008 "failed to stop browser"
                      (VDict {["account_id" := VStr account_id]}) 500)
          else ret (ok_response (VDict {["status" := VStr outcome.2]}))
        else ret not_found
    | None => ret not_found
    end).

End stopping.
End app.

(** ** app/scripts/start_autostart.py *)

Module start_autostart.
Section start_autostart.
Context `{Platform}.

(** [main] prints the two lists when one of them is not empty; the lists
    are its result here. *)
Definition main : io (list value * list value) :=
  let* items := accounts.load_accounts in
  let* items := lift (iterate items) in
  app.autostart_loop items [] [].

End start_autostart.
End start_autostart.

(** ** app/scripts/account_launcher.py

    [start] and [stop] print one line and return the exit status of the
    script; the line is returned with the stream it goes to. *)

Module account_launcher.

Inductive stream : Type := Stdout | Stderr.

Section account_launcher.
Context `{Platform} `{Signals}.

Definition start (account_id : string) : io (Z * (stream * string)) :=
  let* items := accounts.load_accounts in
  let* acc := lift (accounts.find_account items account_id) in
  match acc with
  | Some (_, acc) =>
      if truthy (VDict acc) then
        let* outcome := accounts.start_account acc in
        ret (if outcome.1 || bool_decide (outcome.2 = "already_running") then 0%Z else 1%Z,
             (Stdout, outcome.2))
      else ret (1%Z, (Stderr, "account " +:+ account_id +:+ " not found"))
  | None => ret (1%Z, (Stderr, "account " +:+ account_id +:+ " not found"))
  end.

Definition stop (account_id : string) : io (Z * (stream * string)) :=
  let* items := accounts.load_accounts in
  let* acc := lift (accounts.find_account items account_id) in
  match acc with
  | Some (_, acc) =>
      if truthy (VDict acc) then
        let* outcome := accounts.stop_account acc in
        ret (if outcome.1 || bool_decide (outcome.2 = "already_stopped") then 0%Z else 1%Z,
             (Stdout, outcome.2))
      else ret (1%Z, (Stderr, "account " +:+ account_id +:+ " not found"))
  | None => ret (1%Z, (Stderr, "account " +:+ account_id +:+ " not found"))
  end.

(** [action] is one of the two choices that argparse lets through. *)
Definition main (action account_id : string) : io (Z * (stream * string)) :=
  if bool_decide (action = "start") then start account_id
  else stop account_id.

End account_launcher.
End account_launcher.

(** ** Vocabulary of the properties *)

(** The version an update reads: [account.get("version", 1)] as a number. *)
Definition version_of (account : dict) : option Z :=
  as_int (get_or account "version" (VInt 1)).

(** A sequence of updates applied to the same account, each with its patch
    and its [check_version] flag, stopping at the first one that raises. *)
Fixpoint apply_updates (account : dict) (patches : list (dict * bool)) : dict * result unit :=
  match patches with
  | [] => (account, Ok ())
  | (cleaned, check_version) :: rest =>
      match accounts.update_account_obj account cleaned check_version with
      | (account, Ok _) => apply_updates account rest
      | failed => failed
      end
  end.

(** The separator that [path_join] puts after [a]. *)
Definition sep_of (a : string) : string :=
  if bool_decide (a = EmptyString) || endswith_sep a then EmptyString else "/".

Section vocabulary.
Context `{Platform}.

(** No regular file stands where ensure_data_dirs needs a directory. *)
Definition data_dirs_available (w : World) : Prop :=
  DATA_DIR ≠ EmptyString ∧
  files w !! DATA_DIR = None ∧
  files w !! accounts.PROFILES_DIR = None ∧
  files w !! accounts.LOG_DIR = None.

(** The world once the three data directories exist. *)
Definition with_data_dirs (w : World) : World :=
  mkWorld (files w)
          ({[accounts.LOG_DIR]} ∪ ({[accounts.PROFILES_DIR]} ∪ ({[DATA_DIR]} ∪ dirs w)))
          (executables w) (procs w) (effects w).

End vocabulary.

(** [sep not in s] *)
Fixpoint no_sep (s : string) : bool :=
  match s with
  | EmptyString => true
  | String c s' => negb (bool_decide (c = "/"%char)) && no_sep s'
  end.






(** What a computation can return and what it can raise. *)
Definition outcomes {A} (returned : A → Prop) (raised : exn → Prop) (m : io A) : Prop :=
  ∀ w w' r, m w = (w', r) →
    match r with
    | Ok a => returned a
    | Raise e => raised e
    end.

Definition routcomes {A} (returned : A → Prop) (raised : exn → Prop) (r : result A) : Prop :=
  match r with
  | Ok a => returned a
  | Raise e => raised e
  end.

(** Any exception but the version conflict of update_account_obj. *)
Definition not_conflict (e : exn) : Prop :=
  match e with
  | ValidationError _ c => c ≠ 1007%Z
  | _ => True
  end.

Definition anything {A} (a : A) : Prop := True.

Section claims.
Context `{Platform}.


End claims.

(** The world once the profile of [dir] has been provisioned with the
    text [text] of user.js. *)
Definition profiled (dir text : string) (w : World) : World :=
  mkWorld (<[path_join dir "user.js" := Raw text]> (files w))
          ({[dir]} ∪ dirs w)
          (executables w) (procs w)
          (effects w ++ [EWrite (path_join dir "user.js") (Raw text)]).

(** The processes that have been spawned, in order. *)
Definition spawned (w : World) : list (list string) :=
  omap (fun e => match e with ESpawn args => Some args | _ => None end) (effects w).

(** An item of the store that is a dict whose id is not [account_id]. *)
Definition other_account (account_id : string) (item : value) : Prop :=
  ∃ d, item = VDict d ∧ d !! "id" ≠ Some (VStr account_id).

(** Every run of [m] relates the world it starts in to the world it ends
    in by [R], whether it returns or raises. *)
Definition preserves {A} (R : relation World) (m : io A) : Prop :=
  ∀ w w' r, m w = (w', r) → R w w'.

Section vocabulary2.
Context `{Platform}.

(** The store file is what it was. *)
Definition same_store (w w' : World) : Prop :=
  files w' !! accounts.ACCOUNTS_FILE = files w !! accounts.ACCOUNTS_FILE.

End vocabulary2.

(** Nothing has changed but, possibly, the directories that exist. *)
Definition same_but_dirs (w w' : World) : Prop :=
  files w' = files w ∧ executables w' = executables w ∧
  procs w' = procs w ∧ effects w' = effects w.

(** The exceptions of input validation: ValidationError with the default
    code. *)
Definition invalid_input (e : exn) : Prop :=
  ∃ message, e = ValidationError message 1001.

(** The process table, the spawned processes and the installed programs
    are what they were. *)
Definition same_processes (w w' : World) : Prop :=
  procs w' = procs w ∧ spawned w' = spawned w ∧ executables w' = executables w.

(** The ids that the autostart loop collects from a list of account
    dicts: those of the accounts whose autostart is truthy, in order. *)
Definition autostart_ids (items : list value) : list value :=
  omap (fun item =>
          match item with
          | VDict d => if truthy (get d "autostart") then Some (get d "id") else None
          | _ => None
          end) items.

(** Reading back the two hex digits that [hex_of_byte] writes. *)
Definition unhex_digit (c : ascii) : N :=
  let n := N_of_ascii c in
  if (N.leb 48 n && N.leb n 57)%bool then (n - 48)%N else (n - 87)%N.

Definition byte_of_hex (s : string) : option Byte.byte :=
  match s with
  | String h (String l EmptyString) => Byte.of_N (16 * unhex_digit h + unhex_digit l)
  | _ => None
  end.

Section validated.
Context `{Platform}.

(** An optional text field of a proxy endpoint: absent or None in the
    payload, it is stored as the empty string; a string is stored as it
    is, and is no longer than [limit]. *)
Definition optional_text (limit : Z) (raw stored : value) : Prop :=
  (raw = VNone ∧ stored = VStr EmptyString) ∨
  (∃ s, raw = VStr s ∧ stored = VStr s ∧ (str_len s ≤ limit)%Z).

(** [entry] is the endpoint record that validation makes of the payload
    object [obj]. *)
Definition cleaned_endpoint (obj : dict) (entry : value) : Prop :=
  ∃ host n username password,
    obj !! "host" = Some (VStr host) ∧ str_strip host ≠ EmptyString ∧
    as_int (get obj "port") = Some n ∧ (1 ≤ n ≤ 65535)%Z ∧
    optional_text 256 (get obj "username") username ∧
    optional_text 256 (get obj "password") password ∧
    entry = VDict (<["host" := VStr (str_strip host)]>
                  (<["port" := get obj "port"]>
                  (<["username" := username]>
                  (<["password" := password]> ∅)))).

End validated.

(** ** A reference platform

    An ASCII instance of [Platform] on which the definitions can be run:
    [DATA_DIR] has its default and [pgrep -f] is a substring test, which is
    what it is for a pattern without regular expression operators. *)

Module Sample.

Definition is_space (c : ascii) : bool :=
  let n := nat_of_ascii c in
  (Nat.leb 9 n && Nat.leb n 13) || Nat.eqb n 32.

Fixpoint lstrip (s : string) : string :=
  match s with
  | String c s' => if is_space c then lstrip s' else s
  | EmptyString => EmptyString
  end.

Definition strip (s : string) : string :=
  String.rev (lstrip (String.rev (lstrip s))).

Definition lower_ascii (c : ascii) : ascii :=
  let n := nat_of_ascii c in
  if Nat.leb 65 n && Nat.leb n 90 then ascii_of_nat (n + 32) else c.

Fixpoint lower (s : string) : string :=
  match s with
  | String c s' => String (lower_ascii c) (lower s')
  | EmptyString => EmptyString
  end.

(** [json.dumps]: a string is quoted as it stands, which is right for
    text without quotes, backslashes and control characters; the entries
    of a dict come in the order of the map, not in insertion order. *)
Definition quoted (s : string) : string := accounts.dquote +:+ s +:+ accounts.dquote.

Fixpoint dumps (v : value) : string :=
  match v with
  | VNone => "null"
  | VBool b => if b then "true" else "false"
  | VInt z => str_of_int z
  | VStr s => quoted s
  | VList l => "[" +:+ String.concat ", " (List.map dumps l) +:+ "]"
  | VDict d =>
      "{" +:+ String.concat ", "
                (map_fold (fun k v acc => acc ++ [quoted k +:+ ": " +:+ dumps v]) [] d)
      +:+ "}"
  end.

Definition platform : Platform := {|
  DATA_DIR := "/data";
  str_strip := strip;
  str_len := fun s => Z.of_nat (String.length s);
  str_lower := lower;
  json_dumps := dumps;
  cmdline_matches := is_infix
|}.

(** A [pkill -f] that matches by substring and whose targets exit at
    once: status 0 iff some process matched. *)
Definition signals : Signals := {|
  pkill_f := fun pattern table =>
    (existsb (is_infix pattern) table,
     List.filter (fun c => negb (is_infix pattern c)) table)
|}.

(** A freshly installed container: nothing on disk, both tools present,
    no browser running. *)
Definition fresh : World :=
  mkWorld ∅ ∅ {["pgrep"; "firefox-esr"]} [] [].

Definition with_store (accounts : list value) (w : World) : World :=
  mkWorld (<["/data/accounts.json" := Json (VList accounts)]> (files w)) (dirs w)
          (executables w) (procs w) (effects w).

Definition with_file (path : string) (d : file_data) (w : World) : World :=
  mkWorld (<[path := d]> (files w)) (dirs w) (executables w) (procs w) (effects w).

Definition with_dir (path : string) (w : World) : World :=
  mkWorld (files w) ({[path]} ∪ dirs w) (executables w) (procs w) (effects w).

Definition proxy_entry (host : string) (port : Z) : value :=
  VDict (<["host" := VStr host]> (<["port" := VInt port]>
        (<["username" := VStr EmptyString]> {["password" := VStr EmptyString]}))).

Definition account (id : string) (autostart : bool) (proxy : dict) (version : Z) : dict :=
  <["id" := VStr id]>
  (<["name" := VStr id]>
  (<["profile_dir" := VStr ("/data/profiles/" +:+ id)]>
  (<["proxy" := VDict proxy]>
  (<["autostart" := VBool autostart]>
  (<["default_url" := VStr EmptyString]>
  (<["notes" := VStr EmptyString]>
  {["version" := VInt version]})))))).

Definition alice : dict := account "acc-1-aaaaaa" true ∅ 1.
Definition bob : dict := account "acc-2-bbbbbb" true ∅ 1.
Definition carol : dict := account "acc-3-cccccc" false ∅ 1.

(** A patch that claims version 7, and a run of three patches. *)
Definition stale_patch : dict :=
  <["notes" := VStr "renamed elsewhere"]> {["version" := VInt 7]}.

Definition three_patches : list (dict * bool) :=
  [({["notes" := VStr "first"]}, false);
   (<["name" := VStr "work"]> {["version" := VInt 2]}, true);
   (∅, true)].



Definition new_payload : value :=
  VDict (<["name" := VStr "work"]> {["autostart" := VBool true]}).

Definition new_cleaned : dict :=
  <["name" := VStr "work"]>
  (<["autostart" := VBool true]>
  (<["default_url" := VStr EmptyString]>
   {["notes" := VStr EmptyString]})).


(** Three accounts in the store, two of them with autostart, and the same
    store in a world where a regular file stands at the path of alice's
    profile directory. *)
Definition three_accounts : list value := [VDict alice; VDict carol; VDict bob].

Definition blocked_world : World :=
  with_file "/data/profiles/acc-1-aaaaaa" (Raw "not a directory")
            (with_store three_accounts fresh).

(** A store in which alice occurs twice, around bob. *)
Definition doubled : list value := [VDict alice; VDict bob; VDict alice].

(** A container with pkill installed, whose store holds alice and in
    which alice's browser runs. *)
Definition running_world : World :=
  mkWorld {["/data/accounts.json" := Json (VList [VDict alice])]} ∅
          {["pgrep"; "pkill"; "firefox-esr"]}
          [cmdline ["firefox-esr"; "--no-remote"; "--profile"; "/data/profiles/acc-1-aaaaaa"]]
          [].


(** A store that holds alice and bob, alice's profile directory being
    there. *)
Definition two_accounts : list value := [VDict alice; VDict bob].

Definition settled_world : World :=
  with_dir "/data/profiles/acc-1-aaaaaa" (with_store two_accounts fresh).

Definition notes_patch : dict := {["notes" := VStr "hello"]}.

Definition padded_proxy : dict :=
  {["http" := VDict (<["host" := VStr " 10.0.0.1 "]> {["port" := VInt 8080]})]}.

End Sample.

(** * Properties *)

(** ** Inversion of the error monads *)

Lemma rbind_ok {A B} (m : result A) (k : A → result B) (b : B) :
  rbind m k = Ok b → ∃ a, m = Ok a ∧ k a = Ok b.
Proof. destruct m; simpl; eauto; discriminate. Qed.

Lemma bind_ok {A B} (m : io A) (k : A → io B) (w w' : World) (b : B) :
  bind m k w = (w', Ok b) → ∃ w1 a, m w = (w1, Ok a) ∧ k a w1 = (w', Ok b).
Proof.
  unfold bind. destruct (m w) as [w1 [a|e]]; [eauto | discriminate].
Qed.

Lemma lift_ok {A} (r : result A) (w w' : World) (a : A) :
  lift r w = (w', Ok a) → w' = w ∧ r = Ok a.
Proof. unfold lift. by intros [= -> ->]. Qed.

Ltac rbind_inv :=
  repeat match goal with
         | Hb : rbind ?m ?k = Ok ?b |- _ =>
             let a := fresh "a" in
             let Ha := fresh "Ha" in
             apply rbind_ok in Hb as (a & Ha & Hb)
         end.

(** ** The versioned update *)

Section update.

Implicit Types account cleaned final : dict.

Lemma lookup_merge (keys : list string) cleaned account (k : string) :
  foldl (accounts.merge_key cleaned) account keys !! k =
  if bool_decide (k ∈ keys)
  then match cleaned !! k with Some v => Some v | None => account !! k end
  else account !! k.
Proof.
  revert account. induction keys as [|key keys IH]; intros account.
  - simpl foldl. case_bool_decide as Hk; [by apply elem_of_nil in Hk | done].
  - simpl foldl. rewrite IH. unfold accounts.merge_key.
    destruct (decide (k = key)) as [->|Hne].
    + rewrite (bool_decide_eq_true_2 (key ∈ key :: keys)) by apply list_elem_of_here.
      destruct (cleaned !! key) eqn:Hc; [|by case_bool_decide].
      case_bool_decide; [done | by rewrite lookup_insert_eq].
    + assert (bool_decide (k ∈ key :: keys) = bool_decide (k ∈ keys)) as ->.
      { apply bool_decide_ext. rewrite elem_of_cons. tauto. }
      destruct (cleaned !! key); [rewrite lookup_insert_ne by done|]; done.
Qed.

(** What a successful call has done: no conflict was found and the
    account is the merge with the bumped version on top. *)
Lemma update_account_obj_ok account cleaned (check_version : bool) final :
  accounts.update_account_obj account cleaned check_version = (final, Ok ()) →
  accounts.version_conflict account cleaned check_version = false ∧
  ∃ n, version_of account = Some n ∧
       final = <["version" := VInt (n + 1)]>
                 (foldl (accounts.merge_key cleaned) account accounts.MERGE_KEYS).
Proof.
  unfold accounts.update_account_obj.
  destruct (accounts.version_conflict _ _ _); [done|].
  intros Hupd. split; [done|].
  unfold add_int in Hupd.
  assert (get_or (foldl (accounts.merge_key cleaned) account accounts.MERGE_KEYS)
            "version" (VInt 1) = get_or account "version" (VInt 1)) as Hv.
  { unfold get_or. by rewrite lookup_merge. }
  rewrite Hv in Hupd. unfold version_of.
  destruct (as_int (get_or account "version" (VInt 1))) as [n|]; [|done].
  exists n. split; [done|]. by inversion Hupd.
Qed.

Lemma version_of_bumped account (n : Z) :
  version_of (<["version" := VInt n]> account) = Some n.
Proof. unfold version_of, get_or. by rewrite lookup_insert_eq. Qed.

Lemma update_account_obj_version account cleaned (check_version : bool) final (n : Z) :
  version_of account = Some n →
  accounts.update_account_obj account cleaned check_version = (final, Ok ()) →
  final !! "version" = Some (VInt (n + 1)) ∧ version_of final = Some (n + 1)%Z.
Proof.
  intros Hn Hupd. apply update_account_obj_ok in Hupd as (_ & m & Hm & ->).
  assert (m = n) as -> by congruence.
  split; [apply lookup_insert_eq | apply version_of_bumped].
Qed.

Lemma build_account_version `{Platform} ts entropy cleaned account :
  accounts.build_account ts entropy cleaned = Ok account →
  account !! "version" = Some (VInt 1).
Proof.
  unfold accounts.build_account. intros Hb. rbind_inv.
  injection Hb as <-. by simplify_map_eq.
Qed.

(** C1.  When the version check is requested and the patch carries a
    version that differs from the one of the account, update_account_obj
    raises ValidationError with code 1007 and the account dict is exactly
    what it was before the call: no field of the patch has been applied. *)
Theorem update_stale_version_conflict account cleaned (v : value) :
  cleaned !! "version" = Some v →
  py_ne (get account "version") v = true →
  accounts.update_account_obj account cleaned true
  = (account, Raise (ValidationError "version conflict" 1007)).
Proof.
  intros Hv Hne. unfold accounts.update_account_obj, accounts.version_conflict.
  by rewrite Hv, Hne.
Qed.

Lemma apply_updates_versions account final (n : Z) (patches : list (dict * bool)) :
  version_of account = Some n →
  apply_updates account patches = (final, Ok ()) →
  version_of final = Some (n + Z.of_nat (length patches))%Z ∧
  (patches ≠ [] → final !! "version" = Some (VInt (n + Z.of_nat (length patches)))) ∧
  ∀ k : nat, k ≤ length patches →
    ∃ mid, apply_updates account (take k patches) = (mid, Ok ()) ∧
           version_of mid = Some (n + Z.of_nat k)%Z.
Proof.
  revert account n. induction patches as [|[cleaned cv] patches IH]; intros account n Hn Hrun.
  - simpl in Hrun. injection Hrun as <-. simpl length.
    rewrite Z.add_0_r. split; [done|]. split; [done|].
    intros k Hk. assert (k = 0) as -> by lia. exists account.
    by rewrite Z.add_0_r.
  - simpl in Hrun.
    destruct (accounts.update_account_obj account cleaned cv) as [next [[]|e]] eqn:Hupd;
      [|discriminate].
    destruct (update_account_obj_version _ _ _ _ _ Hn Hupd) as [Hnext Hvnext].
    destruct (IH next (n + 1)%Z Hvnext Hrun) as (Hfin & Hkey & Hmid).
    assert (n + 1 + Z.of_nat (length patches) = n + Z.of_nat (length ((cleaned, cv) :: patches)))%Z as Hlen
      by (simpl length; lia).
    rewrite Hlen in Hfin, Hkey.
    split; [done|]. split.
    + intros _. destruct patches as [|p patches]; [|by apply Hkey].
      simpl in Hrun. injection Hrun as <-. simpl length. by rewrite Hnext.
    + intros [|k] Hk.
      * exists account. simpl. by rewrite Z.add_0_r.
      * simpl in Hk. destruct (Hmid k ltac:(lia)) as (mid & Hrunk & Hvk).
        exists mid. simpl. rewrite Hupd. split; [done|].
        rewrite Hvk. f_equal. lia.
Qed.

(** C2.  Every successful update raises the version by exactly 1, so a
    run of N successful updates from version n ends at version n + N and
    passes through n + k after its first k updates, for every k up to N:
    the version never decreases and skips no value.  For an account made
    by build_account, whose version is 1, the final version is 1 + N. *)
Theorem version_counts_successful_updates account final (n : Z)
    (patches : list (dict * bool)) :
  version_of account = Some n →
  apply_updates account patches = (final, Ok ()) →
  (∀ cleaned check_version next,
      accounts.update_account_obj account cleaned check_version = (next, Ok ()) →
      next !! "version" = Some (VInt (n + 1))) ∧
  version_of final = Some (n + Z.of_nat (length patches))%Z ∧
  (∀ k : nat, k ≤ length patches →
     ∃ mid, apply_updates account (take k patches) = (mid, Ok ()) ∧
            version_of mid = Some (n + Z.of_nat k)%Z) ∧
  (∀ (P : Platform) ts entropy cleaned,
      accounts.build_account ts entropy cleaned = Ok account →
      version_of final = Some (1 + Z.of_nat (length patches))%Z).
Proof.
  intros Hn Hrun.
  destruct (apply_updates_versions _ _ _ _ Hn Hrun) as (Hfin & _ & Hmid).
  split; [|split; [done|split; [done|]]].
  - intros cleaned cv next Hupd.
    by destruct (update_account_obj_version _ _ _ _ _ Hn Hupd).
  - intros P ts entropy cleaned Hb. apply build_account_version in Hb.
    unfold version_of, get_or in Hn. rewrite Hb in Hn. simpl in Hn.
    injection Hn as <-. done.
Qed.

(** C9.  A successful update takes nothing from the version of the patch.
    Entry by entry, the account after the call has the previous version
    plus 1 under [version], the entry of the patch under each of name,
    proxy, autostart, default_url and notes that the patch has, and its
    previous entry everywhere else; and the same call on a patch whose
    version entry is replaced or removed, without the check, gives the
    same account. *)
Theorem update_never_copies_patch_version account cleaned (check_version : bool) final :
  accounts.update_account_obj account cleaned check_version = (final, Ok ()) →
  ∃ n, version_of account = Some n ∧
       final !! "version" = Some (VInt (n + 1)) ∧
       (∀ k, k ≠ "version" →
             final !! k =
             if bool_decide (k ∈ accounts.MERGE_KEYS)
             then match cleaned !! k with Some v => Some v | None => account !! k end
             else account !! k) ∧
       (∀ v, accounts.update_account_obj account (<["version" := v]> cleaned) false
             = (final, Ok ())) ∧
       accounts.update_account_obj account (delete "version" cleaned) false = (final, Ok ()).
Proof.
  intros Hupd. apply update_account_obj_ok in Hupd as (_ & n & Hn & ->).
  exists n. split; [done|]. split; [apply lookup_insert_eq|].
  assert (∀ cleaned', (∀ k, k ≠ "version" → cleaned' !! k = cleaned !! k) →
            accounts.update_account_obj account cleaned' false
            = (<["version" := VInt (n + 1)]>
                 (foldl (accounts.merge_key cleaned) account accounts.MERGE_KEYS), Ok ()))
    as Hsame.
  { intros cleaned' Hagree. unfold accounts.update_account_obj.
    change (accounts.version_conflict account cleaned' false) with false. cbv iota.
    assert (foldl (accounts.merge_key cleaned') account accounts.MERGE_KEYS
            = foldl (accounts.merge_key cleaned) account accounts.MERGE_KEYS) as ->.
    { apply map_eq. intros k. rewrite !lookup_merge.
      case_bool_decide as Hk; [|done].
      rewrite Hagree; [done|]. intros ->.
      apply (bool_decide_pack _) in Hk. vm_compute in Hk. by destruct Hk. }
    unfold add_int, get_or. rewrite lookup_merge. simpl.
    unfold version_of, get_or in Hn. by rewrite Hn. }
  split; [|split].
  - intros k Hk. rewrite lookup_insert_ne by done. apply lookup_merge.
  - intros v. apply Hsame. intros k Hk. by rewrite lookup_insert_ne.
  - apply Hsame. intros k Hk. by rewrite lookup_delete_ne.
Qed.

End update.

(** ** Paths *)

Lemma app_cons (c : ascii) (a b : string) : String c a +:+ b = String c (a +:+ b).
Proof. reflexivity. Qed.

Lemma app_empty_r (a : string) : a +:+ EmptyString = a.
Proof. induction a as [|c a IH]; [done|]. by rewrite app_cons, IH. Qed.

Lemma app_assoc_s (a b c : string) : (a +:+ b) +:+ c = a +:+ b +:+ c.
Proof. induction a as [|x a IH]; [done|]. by rewrite !app_cons, IH. Qed.

Lemma app_length_s (a b : string) :
  String.length (a +:+ b) = String.length a + String.length b.
Proof. induction a as [|x a IH]; [done|]. rewrite app_cons. simpl. by rewrite IH. Qed.

Lemma app_nonempty_ne (a x : string) : x ≠ EmptyString → a +:+ x ≠ a.
Proof.
  intros Hx Heq. induction a as [|c a IH]; [done|].
  apply IH. by injection Heq.
Qed.

(** Two strings that end in suffixes of the same length and are equal
    have equal suffixes. *)
Lemma app_suffix_inj (a b s t : string) :
  String.length s = String.length t → a +:+ s = b +:+ t → s = t.
Proof.
  intros Hlen. revert b. induction a as [|c a IH]; intros [|d b] Heq.
  - done.
  - apply (f_equal String.length) in Heq.
    rewrite !app_length_s in Heq. simpl in Heq. lia.
  - apply (f_equal String.length) in Heq.
    rewrite !app_length_s in Heq. simpl in Heq. lia.
  - rewrite !app_cons in Heq. injection Heq as _ Heq. by eapply IH.
Qed.

Lemma endswith_sep_app (a b : string) :
  b ≠ EmptyString → endswith_sep (a +:+ b) = endswith_sep b.
Proof.
  intros Hb. induction a as [|c a IH]; [done|].
  rewrite app_cons. simpl. destruct (a +:+ b) eqn:Hab; [|done].
  destruct a; [done | discriminate].
Qed.

Lemma path_join_rel (a b : string) :
  String.prefix "/" b = false → path_join a b = a +:+ sep_of a +:+ b.
Proof.
  intros Hb. unfold path_join, sep_of. rewrite Hb.
  by destruct (bool_decide (a = EmptyString) || endswith_sep a).
Qed.

Lemma path_join_nonempty (a b : string) : b ≠ EmptyString → path_join a b ≠ EmptyString.
Proof.
  intros Hb. unfold path_join. repeat case_match; try done.
  - destruct a; [done|discriminate].
  - destruct a; discriminate.
Qed.

Lemma path_join_ne_left (a b : string) :
  b ≠ EmptyString → String.prefix "/" b = false → path_join a b ≠ a.
Proof.
  intros Hb Hp. rewrite path_join_rel by done. apply app_nonempty_ne.
  destruct (sep_of a); [done | discriminate].
Qed.

Section paths.
Context `{Platform}.

Lemma ACCOUNTS_FILE_not_dir :
  accounts.ACCOUNTS_FILE ≠ DATA_DIR ∧
  accounts.ACCOUNTS_FILE ≠ accounts.PROFILES_DIR ∧
  accounts.ACCOUNTS_FILE ≠ accounts.LOG_DIR.
Proof.
  unfold accounts.ACCOUNTS_FILE, accounts.PROFILES_DIR, accounts.LOG_DIR.
  split; [by apply path_join_ne_left|].
  rewrite !path_join_rel by done.
  split; intros Heq; apply (inj _) in Heq; by apply (inj _) in Heq.
Qed.

End paths.

(** ** Loading the store *)

Section load.
Context `{Platform}.

Lemma ensure_data_dirs_run (w : World) :
  data_dirs_available w →
  accounts.ACCOUNTS_FILE ∉ dirs w →
  accounts.ensure_data_dirs w =
  match files w !! accounts.ACCOUNTS_FILE with
  | Some _ => (with_data_dirs w, Ok ())
  | None => write_file accounts.ACCOUNTS_FILE (Json (VList [])) (with_data_dirs w)
  end.
Proof.
  intros (Hd & Hf1 & Hf2 & Hf3) Hnd.
  destruct ACCOUNTS_FILE_not_dir as (Hn1 & Hn2 & Hn3).
  unfold accounts.ensure_data_dirs, bind, makedirs, path_exists. simpl.
  rewrite (bool_decide_eq_false_2 (DATA_DIR = EmptyString)) by done.
  rewrite Hf1. simpl.
  rewrite (bool_decide_eq_false_2 (accounts.PROFILES_DIR = EmptyString))
    by (by apply path_join_nonempty).
  rewrite Hf2. simpl.
  rewrite (bool_decide_eq_false_2 (accounts.LOG_DIR = EmptyString))
    by (by apply path_join_nonempty).
  rewrite Hf3. simpl.
  rewrite (bool_decide_eq_false_2 (accounts.ACCOUNTS_FILE ∈ _)).
  - simpl. destruct (files w !! accounts.ACCOUNTS_FILE); done.
  - rewrite !elem_of_union, !elem_of_singleton. tauto.
Qed.

Lemma load_accounts_run (w : World) :
  data_dirs_available w →
  accounts.ACCOUNTS_FILE ∉ dirs w →
  accounts.load_accounts w =
  match files w !! accounts.ACCOUNTS_FILE with
  | Some (Json data) => (with_data_dirs w, Ok data)
  | Some (Raw _) =>
      (with_data_dirs w, Raise (ValidationError "accounts.json is not valid JSON" 1006))
  | None =>
      (mkWorld (<[accounts.ACCOUNTS_FILE := Json (VList [])]> (files w))
               (dirs (with_data_dirs w)) (executables w) (procs w)
               (effects w ++ [EWrite accounts.ACCOUNTS_FILE (Json (VList []))]),
       Ok (VList []))
  end.
Proof.
  intros Hav Hnd. destruct ACCOUNTS_FILE_not_dir as (Hn1 & Hn2 & Hn3).
  unfold accounts.load_accounts, bind. rewrite ensure_data_dirs_run by done.
  destruct (files w !! accounts.ACCOUNTS_FILE) as [content|] eqn:Hfile.
  - unfold read_file. simpl. rewrite Hfile. by destruct content.
  - unfold write_file. simpl.
    rewrite (bool_decide_eq_false_2 (accounts.ACCOUNTS_FILE ∈ _)).
    + unfold read_file. simpl. by rewrite lookup_insert_eq.
    + rewrite !elem_of_union, !elem_of_singleton. tauto.
Qed.


End load.

(** ** Creating an account *)

Lemma no_sep_app (a b : string) : no_sep (a +:+ b) = no_sep a && no_sep b.
Proof.
  induction a as [|c a IH]; [done|].
  rewrite app_cons. simpl. rewrite IH. by rewrite andb_assoc.
Qed.

Lemma path_components_nonempty (p : string) : path_components p ≠ [].
Proof.
  destruct p as [|c p]; [done|]. simpl.
  case_bool_decide; [done|]. by destruct (path_components p).
Qed.

Lemma path_components_app (a b : string) :
  path_components (a +:+ "/" +:+ b) = path_components a ++ path_components b.
Proof.
  induction a as [|c a IH].
  - done.
  - rewrite app_cons. simpl. rewrite IH.
    case_bool_decide; [done|].
    pose proof (path_components_nonempty a) as Hne.
    by destruct (path_components a).
Qed.

Lemma path_components_no_sep (b : string) : no_sep b = true → path_components b = [b].
Proof.
  induction b as [|c b IH]; [done|]. simpl.
  case_bool_decide; [done|]. simpl. intros Hb. by rewrite IH.
Qed.

Lemma no_sep_uint (d : Decimal.uint) : no_sep (NilEmpty.string_of_uint d) = true.
Proof. induction d; simpl; auto. Qed.

Lemma no_sep_str_of_int (z : Z) : no_sep (str_of_int z) = true.
Proof.
  unfold str_of_int, NilZero.string_of_int, NilZero.string_of_uint.
  destruct (Z.to_int z) as [d|d]; destruct d; simpl; auto using no_sep_uint.
Qed.

Lemma no_sep_hex_of_byte (b : Byte.byte) : no_sep (accounts.hex_of_byte b) = true.
Proof. by destruct b. Qed.

Lemma no_sep_account_id (ts : Z) (entropy : Byte.byte * Byte.byte * Byte.byte) :
  no_sep (accounts.generate_account_id ts entropy) = true.
Proof.
  destruct entropy as [[b0 b1] b2]. unfold accounts.generate_account_id, accounts.token_hex3.
  rewrite !no_sep_app, no_sep_str_of_int, !no_sep_hex_of_byte. done.
Qed.

Lemma account_id_relative (ts : Z) (entropy : Byte.byte * Byte.byte * Byte.byte) :
  String.prefix "/" (accounts.generate_account_id ts entropy) = false.
Proof. done. Qed.

Section create.
Context `{Platform}.

Lemma sep_of_PROFILES_DIR : sep_of accounts.PROFILES_DIR = "/".
Proof.
  unfold sep_of, accounts.PROFILES_DIR.
  rewrite (bool_decide_eq_false_2 (path_join _ _ = EmptyString))
    by (by apply path_join_nonempty).
  rewrite path_join_rel by done.
  rewrite <- app_assoc_s, endswith_sep_app by done. done.
Qed.

Lemma profile_dir_of_id (ts : Z) (entropy : Byte.byte * Byte.byte * Byte.byte) :
  path_join accounts.PROFILES_DIR (accounts.generate_account_id ts entropy)
  = accounts.PROFILES_DIR +:+ "/" +:+ accounts.generate_account_id ts entropy.
Proof.
  rewrite path_join_rel by apply account_id_relative.
  by rewrite sep_of_PROFILES_DIR.
Qed.

Ltac step_cases Hstep :=
  unfold accounts.invalid in Hstep;
  repeat (case_match; try discriminate);
  rbind_inv; simplify_eq;
  repeat (case_match; try discriminate); simplify_eq.

(** What validation keeps of the payload's version, and the name it
    always sets for a full (not partial) payload. *)
Lemma validate_account_payload_ok (payload : value) (cleaned : dict) (partial : bool) :
  accounts.validate_account_payload payload partial = Ok cleaned →
  ∃ p, payload = VDict p ∧
       cleaned !! "version" = p !! "version" ∧
       (partial = false → is_Some (cleaned !! "name")).
Proof.
  destruct payload as [| | | | |p]; try discriminate.
  unfold accounts.validate_account_payload. intros Hv. exists p. split; [done|].
  rbind_inv. simplify_eq.
  assert (a !! "version" = None ∧ (partial = false → is_Some (a !! "name"))) as [Hv0 Hn0].
  { clear Ha0 Ha1 Ha2 Ha3 Ha4. unfold has_key in Ha.
    step_cases Ha; simplify_map_eq; split; try done; eauto.
    all: intros ->; rewrite orb_true_r in *; discriminate. }
  assert (a0 !! "version" = a !! "version" ∧
          (is_Some (a !! "name") → is_Some (a0 !! "name"))) as [Hv1 Hn1].
  { clear Ha Ha1 Ha2 Ha3 Ha4. step_cases Ha0; simplify_map_eq; done. }
  assert (a1 !! "version" = a0 !! "version" ∧
          (is_Some (a0 !! "name") → is_Some (a1 !! "name"))) as [Hv2 Hn2].
  { clear Ha Ha0 Ha2 Ha3 Ha4. step_cases Ha1; simplify_map_eq; done. }
  assert (a2 !! "version" = a1 !! "version" ∧
          (is_Some (a1 !! "name") → is_Some (a2 !! "name"))) as [Hv3 Hn3].
  { clear Ha Ha0 Ha1 Ha3 Ha4. step_cases Ha2; simplify_map_eq; done. }
  assert (a3 !! "version" = a2 !! "version" ∧
          (is_Some (a2 !! "name") → is_Some (a3 !! "name"))) as [Hv4 Hn4].
  { clear Ha Ha0 Ha1 Ha2 Ha4. step_cases Ha3; simplify_map_eq; done. }
  assert (cleaned !! "version" = p !! "version" ∧
          (is_Some (a3 !! "name") → is_Some (cleaned !! "name"))) as [Hv5 Hn5].
  { rewrite <- Hv1, <- Hv2, <- Hv3, <- Hv4 in Hv0. clear Ha Ha0 Ha1 Ha2 Ha3.
    unfold has_key, get in Ha4.
    destruct (p !! "version") as [v|] eqn:Hpv; simpl in Ha4.
    - destruct (isinstance_int v); [|done]. simplify_eq. by simplify_map_eq.
    - by simplify_eq. }
  split; [done|]. intros Hp. apply Hn5, Hn4, Hn3, Hn2, Hn1, Hn0, Hp.
Qed.

(** C7.  For a payload that validation accepts as a full payload,
    build_account returns a record whose version is 1, whose id is the
    generated identifier and whose profile_dir is PROFILES_DIR joined with
    that identifier: the identifier is a component of the path, the last
    one. *)
Theorem created_account_version_and_profile_dir (payload : value) (cleaned : dict)
    (ts : Z) (entropy : Byte.byte * Byte.byte * Byte.byte) :
  accounts.validate_account_payload payload false = Ok cleaned →
  ∃ account profile_dir,
    accounts.build_account ts entropy cleaned = Ok account ∧
    account !! "version" = Some (VInt 1) ∧
    account !! "id" = Some (VStr (accounts.generate_account_id ts entropy)) ∧
    account !! "profile_dir" = Some (VStr profile_dir) ∧
    accounts.generate_account_id ts entropy ∈ path_components profile_dir ∧
    last (path_components profile_dir) = Some (accounts.generate_account_id ts entropy).
Proof.
  intros Hv. apply validate_account_payload_ok in Hv as (p & _ & _ & Hname).
  destruct (Hname eq_refl) as [name Hn].
  unfold accounts.build_account, getitem. rewrite Hn. simpl.
  eexists _, _. split; [done|].
  split; [by simplify_map_eq|]. split; [by simplify_map_eq|].
  split; [by simplify_map_eq|].
  rewrite profile_dir_of_id, path_components_app.
  rewrite (path_components_no_sep (accounts.generate_account_id ts entropy))
    by apply no_sep_account_id.
  split; [|by rewrite last_snoc].
  apply elem_of_app. right. apply list_elem_of_here.
Qed.

End create.

(** ** The profile provisioner *)

Section provision.
Context `{Platform}.







End provision.

(** ** What the functions can raise *)

Lemma outcomes_ret {A} (returned : A → Prop) raised (a : A) :
  returned a → outcomes returned raised (ret a).
Proof. intros Ha w w' r [= <- <-]. done. Qed.

Lemma outcomes_raise {A} (returned : A → Prop) (raised : exn → Prop) e :
  raised e → outcomes returned raised (raise e).
Proof. intros He w w' r [= <- <-]. done. Qed.

Lemma outcomes_lift {A} (returned : A → Prop) raised (r : result A) :
  routcomes returned raised r → outcomes returned raised (lift r).
Proof. intros Hr w w' r' [= <- <-]. done. Qed.

Lemma outcomes_bind {A B} (mid : A → Prop) (returned : B → Prop) raised
    (m : io A) (k : A → io B) :
  outcomes mid raised m →
  (∀ a, mid a → outcomes returned raised (k a)) →
  outcomes returned raised (bind m k).
Proof.
  intros Hm Hk w w' r. unfold bind.
  destruct (m w) as [w1 [a|e]] eqn:Hmw.
  - apply Hk. apply (Hm _ _ _ Hmw).
  - intros [= <- <-]. apply (Hm _ _ _ Hmw).
Qed.

Lemma outcomes_weaken {A} (returned returned' : A → Prop) raised (m : io A) :
  outcomes returned raised m →
  (∀ a, returned a → returned' a) →
  outcomes returned' raised m.
Proof.
  intros Hm Himp w w' r Hrun. specialize (Hm _ _ _ Hrun).
  destruct r; [by apply Himp | done].
Qed.

Lemma routcomes_bind {A B} (mid : A → Prop) (returned : B → Prop) raised
    (m : result A) (k : A → result B) :
  routcomes mid raised m →
  (∀ a, mid a → routcomes returned raised (k a)) →
  routcomes returned raised (rbind m k).
Proof. intros Hm Hk. destruct m as [a|e]; simpl; [by apply Hk | done]. Qed.

Lemma routcomes_any {A} raised (r : result A) :
  (∀ e, r = Raise e → raised e) → routcomes anything raised r.
Proof. intros Hr. destruct r as [a|e]; simpl; [done | by apply Hr]. Qed.

(** One step of a proof that a computation raises no version conflict. *)
Ltac calm_step :=
  first
    [ apply outcomes_ret; done
    | apply outcomes_raise; done
    | apply routcomes_bind with (mid := anything); [|intros ? _]
    | apply outcomes_bind with (mid := anything); [|intros ? _]
    | apply outcomes_lift
    | progress (simpl routcomes)
    | done
    | progress case_match ].

Lemma makedirs_calm path : outcomes anything not_conflict (makedirs path).
Proof. intros w w' r. unfold makedirs. repeat case_match; intros [= <- <-]; done. Qed.

Lemma write_file_calm path d : outcomes anything not_conflict (write_file path d).
Proof. intros w w' r. unfold write_file. repeat case_match; intros [= <- <-]; done. Qed.

Lemma read_file_calm path : outcomes anything not_conflict (read_file path).
Proof. intros w w' r. unfold read_file. repeat case_match; intros [= <- <-]; done. Qed.

Lemma path_exists_calm path : outcomes anything not_conflict (path_exists path).
Proof. intros w w' r. unfold path_exists. intros [= <- <-]. done. Qed.

Lemma open_append_calm path : outcomes anything not_conflict (open_append path).
Proof. intros w w' r. unfold open_append. repeat case_match; intros [= <- <-]; done. Qed.

Lemma rmtree_calm path : outcomes anything not_conflict (rmtree path).
Proof. intros w w' r. unfold rmtree. repeat case_match; intros [= <- <-]; done. Qed.

Lemma popen_calm cmd : outcomes anything not_conflict (popen cmd).
Proof.
  intros w w' r. unfold popen.
  destruct (all_str cmd) as [args|e] eqn:Hargs.
  - repeat case_match; intros [= <- <-]; done.
  - intros [= <- <-]. revert e Hargs. induction cmd as [|v cmd IH]; intros e; [done|].
    simpl. destruct v; simpl; try (by intros [= <-]).
    destruct (all_str cmd); simpl; [done|]. intros [= <-]. by apply IH.
Qed.

Section calm.
Context `{Platform}.

Lemma pgrep_calm pattern : outcomes anything not_conflict (pgrep pattern).
Proof. intros w w' r. unfold pgrep. repeat case_match; intros [= <- <-]; done. Qed.

Lemma ensure_data_dirs_calm : outcomes anything not_conflict accounts.ensure_data_dirs.
Proof.
  unfold accounts.ensure_data_dirs.
  repeat first [apply makedirs_calm | apply write_file_calm | apply path_exists_calm
               | calm_step].
Qed.

Lemma load_accounts_calm : outcomes anything not_conflict accounts.load_accounts.
Proof.
  unfold accounts.load_accounts.
  repeat first [apply ensure_data_dirs_calm | apply read_file_calm | calm_step].
Qed.

Lemma save_accounts_calm accounts : outcomes anything not_conflict (accounts.save_accounts accounts).
Proof.
  unfold accounts.save_accounts.
  repeat first [apply ensure_data_dirs_calm | apply write_file_calm | calm_step].
Qed.

End calm.

(** ** The update endpoint *)

Section endpoints.
Context `{Platform}.

Lemma _validate_proxy_obj_calm obj prefix :
  routcomes anything not_conflict (accounts._validate_proxy_obj obj prefix).
Proof.
  unfold accounts._validate_proxy_obj, accounts.invalid. repeat calm_step.
Qed.

Lemma validate_proxy_keys_calm proxy keys res :
  routcomes anything not_conflict (accounts.validate_proxy_keys proxy keys res).
Proof.
  revert res. induction keys as [|key keys IH]; intros res; simpl; [done|].
  repeat first [apply IH | apply _validate_proxy_obj_calm | calm_step].
Qed.

Lemma validate_proxy_calm proxy :
  routcomes anything not_conflict (accounts.validate_proxy proxy).
Proof.
  unfold accounts.validate_proxy, accounts.invalid.
  repeat first [apply validate_proxy_keys_calm | calm_step].
Qed.

Lemma validate_account_payload_calm data partial :
  routcomes anything not_conflict (accounts.validate_account_payload data partial).
Proof.
  unfold accounts.validate_account_payload, accounts.invalid.
  repeat first [apply validate_proxy_calm | calm_step].
Qed.

Lemma find_in_calm items account_id pos :
  routcomes anything not_conflict (accounts.find_in items account_id pos).
Proof.
  revert pos. induction items as [|item items IH]; intros pos; simpl; [done|].
  unfold get_attr. repeat first [apply IH | calm_step].
Qed.

Lemma find_account_calm accs account_id :
  routcomes anything not_conflict (accounts.find_account accs account_id).
Proof.
  unfold accounts.find_account, iterate.
  repeat first [apply find_in_calm | calm_step].
Qed.

Lemma host_port_calm entry key :
  routcomes anything not_conflict (accounts.host_port entry key).
Proof.
  unfold accounts.host_port, subscript, getitem. repeat calm_step.
Qed.

Lemma user_js_prefs_calm proxy :
  routcomes anything not_conflict (accounts.user_js_prefs proxy).
Proof.
  unfold accounts.user_js_prefs, contains, subscript, getitem.
  repeat first [apply host_port_calm | calm_step].
Qed.

Lemma write_user_js_calm account :
  outcomes anything not_conflict (accounts.write_user_js account).
Proof.
  unfold accounts.write_user_js, getitem, as_str.
  repeat first [apply makedirs_calm | apply write_file_calm | apply user_js_prefs_calm
               | calm_step].
Qed.

Lemma ensure_profile_calm account :
  outcomes anything not_conflict (accounts.ensure_profile account).
Proof.
  unfold accounts.ensure_profile, getitem, as_str.
  repeat first [apply makedirs_calm | apply write_user_js_calm | calm_step].
Qed.

Lemma serialize_account_calm acc with_running :
  outcomes anything not_conflict (app.serialize_account acc with_running).
Proof.
  unfold app.serialize_account, accounts.is_running, getitem, as_str.
  repeat first [apply pgrep_calm | calm_step].
Qed.

Lemma update_account_obj_unchecked (account cleaned : dict) (cv : bool) :
  cleaned !! "version" = None →
  accounts.update_account_obj account cleaned cv
  = accounts.update_account_obj account cleaned false ∧
  ∀ final e, accounts.update_account_obj account cleaned cv = (final, Raise e) →
             e = TypeError ∧ version_of account = None.
Proof.
  intros Hv. unfold accounts.update_account_obj at 1 3, accounts.version_conflict.
  rewrite Hv, andb_false_r. simpl andb. cbv iota. split; [done|].
  intros final e. unfold add_int.
  assert (get_or (foldl (accounts.merge_key cleaned) account accounts.MERGE_KEYS)
            "version" (VInt 1) = get_or account "version" (VInt 1)) as ->.
  { unfold get_or. by rewrite lookup_merge. }
  unfold version_of. destruct (as_int (get_or account "version" (VInt 1))); [done|].
  by intros [= _ <-].
Qed.

Lemma handle_validation_error_outcomes (returned : app.response → Prop) (view : io app.response) :
  outcomes returned not_conflict view →
  (∀ c msg status, c ≠ 1007%Z → returned (app.api_response c msg VNone status)) →
  outcomes returned (λ e, ∀ msg c, e ≠ ValidationError msg c) (app.handle_validation_error view).
Proof.
  intros Hview Hresp w w' r. unfold app.handle_validation_error.
  destruct (view w) as [w1 [a|e]] eqn:Hrun.
  - intros [= <- <-]. apply (Hview _ _ _ Hrun).
  - pose proof (Hview _ _ _ Hrun) as He. simpl in He.
    destruct e; intros [= <- <-]; try done. by apply Hresp.
Qed.

Lemma update_account_no_conflict (account_id : string) (body : value) (p : dict) :
  py_or body (VDict ∅) = VDict p →
  p !! "version" = None →
  outcomes (λ r, app.code r ≠ 1007%Z) (λ e, ∀ msg c, e ≠ ValidationError msg c)
           (app.update_account account_id body).
Proof.
  intros Hbody Hp. unfold app.update_account. rewrite Hbody.
  apply handle_validation_error_outcomes; [|done].
  apply outcomes_bind with (mid := λ cleaned : dict, cleaned !! "version" = None).
  { apply outcomes_lift.
    destruct (accounts.validate_account_payload (VDict p) true) as [cleaned|e] eqn:Hval.
    - apply validate_account_payload_ok in Hval as (p' & [= <-] & Hver & _).
      simpl. congruence.
    - pose proof (validate_account_payload_calm (VDict p) true) as Hcalm.
      by rewrite Hval in Hcalm. }
  intros cleaned Hcleaned.
  apply outcomes_bind with (mid := anything); [apply load_accounts_calm|]. intros items _.
  apply outcomes_bind with (mid := anything);
    [apply outcomes_lift, find_account_calm|]. intros [[pos target]|] _; [|by apply outcomes_ret].
  destruct (truthy (VDict target)); [|by apply outcomes_ret].
  unfold has_key. rewrite Hcleaned.
  destruct (update_account_obj_unchecked target cleaned
              (bool_decide (is_Some (@None value))) Hcleaned) as [_ Hraise].
  destruct (accounts.update_account_obj target cleaned (bool_decide (is_Some None)))
    as [updated [[]|e]] eqn:Hupd.
  - apply outcomes_bind with (mid := anything); [apply save_accounts_calm|]. intros _ _.
    apply outcomes_bind with (mid := anything); [apply ensure_profile_calm|]. intros _ _.
    apply outcomes_bind with (mid := anything); [apply serialize_account_calm|]. intros ser _.
    by apply outcomes_ret.
  - destruct (Hraise _ _ eq_refl) as [-> _]. by apply outcomes_raise.
Qed.

Lemma py_eq_str (v : value) (s : string) : py_eq v (VStr s) = true → v = VStr s.
Proof. destruct v; simpl; try done. intros Heq. apply bool_decide_eq_true in Heq. congruence. Qed.

Lemma find_in_found (items : list value) (account_id : string) (start pos : nat) (d : dict) :
  accounts.find_in items account_id start = Ok (Some (pos, d)) →
  d !! "id" = Some (VStr account_id).
Proof.
  revert start. induction items as [|item items IH]; intros start; simpl; [done|].
  destruct item as [| | | | |d']; simpl; try done.
  destruct (py_eq (get d' "id") (VStr account_id)) eqn:Heq.
  - intros [= <- <-]. apply py_eq_str in Heq. unfold get in Heq.
    destruct (d' !! "id"); simpl in Heq; congruence.
  - apply IH.
Qed.

Lemma find_account_found (accs : value) (account_id : string) (pos : nat) (d : dict) :
  accounts.find_account accs account_id = Ok (Some (pos, d)) →
  d !! "id" = Some (VStr account_id) ∧ truthy (VDict d) = true.
Proof.
  unfold accounts.find_account. intros Hfind.
  apply rbind_ok in Hfind as (items & _ & Hfind).
  apply find_in_found in Hfind. split; [done|].
  simpl. destruct (size d) eqn:Hsize; [|done].
  apply map_size_empty_inv in Hsize as ->. done.
Qed.

(** At the endpoint a stale version is answered with code 1007 and status
    409 in the world that loading left: the store file is not written. *)
Lemma update_account_conflict_leaves_store (account_id : string) (body : value)
    (cleaned target : dict) (v items : value) (pos : nat) (w w1 : World) :
  accounts.validate_account_payload (py_or body (VDict ∅)) true = Ok cleaned →
  cleaned !! "version" = Some v →
  accounts.load_accounts w = (w1, Ok items) →
  accounts.find_account items account_id = Ok (Some (pos, target)) →
  py_ne (get target "version") v = true →
  app.update_account account_id body w
  = (w1, Ok (app.api_response 1007 "version conflict"
               (VDict (<["expected_version" := v]>
                       {["actual_version" := get target "version"]})) 409)).
Proof.
  intros Hval Hv Hload Hfind Hne.
  destruct (find_account_found _ _ _ _ Hfind) as [_ Htruthy].
  unfold app.update_account, app.handle_validation_error, app.get_accounts, bind, lift.
  rewrite Hval, Hload, Hfind, Htruthy.
  assert (has_key cleaned "version" = true) as ->.
  { unfold has_key. rewrite Hv. by apply bool_decide_eq_true_2. }
  unfold accounts.update_account_obj, accounts.version_conflict.
  rewrite Hv, Hne. simpl. unfold get at 1. by rewrite Hv.
Qed.

(** C10.  A patch without a version entry is never checked: with the
    check requested, update_account_obj does exactly what it does without
    it, raises no version conflict, and succeeds whenever the account's
    version is a number or absent.  Validation keeps a version entry
    exactly when the payload has one, and that is the flag the update
    endpoint passes as check_version; so a request body without a version
    is never answered with code 1007. *)
Theorem update_without_version_skips_check (account cleaned : dict) :
  cleaned !! "version" = None →
  accounts.update_account_obj account cleaned true
  = accounts.update_account_obj account cleaned false ∧
  (∀ final message,
     accounts.update_account_obj account cleaned true
     ≠ (final, Raise (ValidationError message 1007))) ∧
  (∀ n, version_of account = Some n →
     ∃ final, accounts.update_account_obj account cleaned true = (final, Ok ()) ∧
              final !! "version" = Some (VInt (n + 1))) ∧
  (∀ (payload validated : dict) (partial : bool),
     accounts.validate_account_payload (VDict payload) partial = Ok validated →
     has_key validated "version" = has_key payload "version") ∧
  (∀ account_id body (p : dict) w w' r,
     py_or body (VDict ∅) = VDict p →
     p !! "version" = None →
     app.update_account account_id body w = (w', Ok r) →
     app.code r ≠ 1007%Z).
Proof.
  intros Hv. destruct (update_account_obj_unchecked account cleaned true Hv) as [Heq Hraise].
  split; [done|]. split; [|split; [|split]].
  - intros final message Hupd. by destruct (Hraise _ _ Hupd).
  - intros n Hn.
    destruct (accounts.update_account_obj account cleaned true) as [final [[]|e]] eqn:Hupd.
    + exists final. split; [done|].
      by destruct (update_account_obj_version _ _ _ _ _ Hn Hupd).
    + destruct (Hraise _ _ eq_refl) as [_ Hnone]. congruence.
  - intros payload validated partial Hval.
    apply validate_account_payload_ok in Hval as (p & [= <-] & Hver & _).
    unfold has_key. by rewrite Hver.
  - intros account_id body p w w' r Hbody Hp Hrun.
    apply (update_account_no_conflict account_id body p Hbody Hp _ _ _ Hrun).
Qed.

End endpoints.

(** ** Deleting an account *)

Section delete.
Context `{Platform}.

(** What load_accounts leaves behind when it returns. *)
Lemma load_accounts_returns (w w1 : World) (items : value) :
  data_dirs_available w →
  accounts.ACCOUNTS_FILE ∉ dirs w →
  accounts.load_accounts w = (w1, Ok items) →
  files w1 !! accounts.ACCOUNTS_FILE = Some (Json items) ∧
  data_dirs_available w1 ∧
  (accounts.ACCOUNTS_FILE ∉ dirs w1) ∧
  dirs (with_data_dirs w1) = dirs w1 ∧
  executables w1 = executables w ∧
  procs w1 = procs w.
Proof.
  intros Hav Hnd. rewrite (load_accounts_run w Hav Hnd).
  destruct ACCOUNTS_FILE_not_dir as (Hn1 & Hn2 & Hn3).
  destruct Hav as (Hd & Hf1 & Hf2 & Hf3).
  assert (accounts.ACCOUNTS_FILE ∉ dirs (with_data_dirs w)) as Hnd1.
  { simpl. rewrite !elem_of_union, !elem_of_singleton. tauto. }
  assert (dirs (with_data_dirs (with_data_dirs w)) = dirs (with_data_dirs w)) as Hidem.
  { simpl. apply set_eq. intros x. rewrite !elem_of_union. tauto. }
  destruct (files w !! accounts.ACCOUNTS_FILE) as [[data|text]|] eqn:Hfile; [| done |].
  - intros [= <- <-]. done.
  - intros [= <- <-]. unfold data_dirs_available. simpl.
    rewrite lookup_insert_eq, !lookup_insert_ne by done. done.
Qed.

Lemma save_accounts_run (accs : value) (w : World) :
  data_dirs_available w →
  accounts.ACCOUNTS_FILE ∉ dirs w →
  is_Some (files w !! accounts.ACCOUNTS_FILE) →
  accounts.save_accounts accs w =
  (mkWorld (<[accounts.ACCOUNTS_FILE := Json accs]> (files w)) (dirs (with_data_dirs w))
           (executables w) (procs w)
           (effects w ++ [EWrite accounts.ACCOUNTS_FILE (Json accs)]), Ok ()).
Proof.
  intros Hav Hnd [d Hd]. destruct ACCOUNTS_FILE_not_dir as (Hn1 & Hn2 & Hn3).
  unfold accounts.save_accounts, bind. rewrite ensure_data_dirs_run by done.
  rewrite Hd. unfold write_file.
  rewrite (bool_decide_eq_false_2 (accounts.ACCOUNTS_FILE ∈ _)).
  2:{ simpl. rewrite !elem_of_union, !elem_of_singleton. tauto. }
  reflexivity.
Qed.

Lemma delete_profile_dir_run (path : string) (w : World) :
  accounts.delete_profile_dir path w =
  if bool_decide (path ∈ dirs w) then rmtree path w else (w, Ok ()).
Proof.
  unfold accounts.delete_profile_dir, bind, path_exists, rmtree.
  repeat case_bool_decide; simpl; try reflexivity; try done.
  all: repeat case_bool_decide; simpl; try reflexivity; done.
Qed.


End delete.

(** ** Starting an account *)

Lemma makedirs_inv (path : string) (w w' : World) :
  makedirs path w = (w', Ok ()) →
  path ≠ EmptyString ∧ files w !! path = None ∧
  w' = mkWorld (files w) ({[path]} ∪ dirs w) (executables w) (procs w) (effects w).
Proof.
  unfold makedirs. case_bool_decide; [done|].
  destruct (files w !! path) eqn:Hf; simpl; [done|]. by intros [= <-].
Qed.

Lemma makedirs_run (path : string) (w : World) :
  path ≠ EmptyString → files w !! path = None →
  makedirs path w
  = (mkWorld (files w) ({[path]} ∪ dirs w) (executables w) (procs w) (effects w), Ok ()).
Proof.
  intros Hp Hf. unfold makedirs. rewrite bool_decide_eq_false_2 by done. by rewrite Hf.
Qed.

Lemma write_file_inv (path : string) (d : file_data) (w w' : World) :
  write_file path d w = (w', Ok ()) →
  (path ∉ dirs w) ∧
  w' = mkWorld (<[path := d]> (files w)) (dirs w) (executables w) (procs w)
               (effects w ++ [EWrite path d]).
Proof. unfold write_file. case_bool_decide; [done|]. by intros [= <-]. Qed.

Lemma write_file_run (path : string) (d : file_data) (w : World) :
  path ∉ dirs w →
  write_file path d w
  = (mkWorld (<[path := d]> (files w)) (dirs w) (executables w) (procs w)
             (effects w ++ [EWrite path d]), Ok ()).
Proof. intros Hp. unfold write_file. by rewrite bool_decide_eq_false_2. Qed.

Lemma user_js_ne_dir (dir : string) : path_join dir "user.js" ≠ dir.
Proof. by apply path_join_ne_left. Qed.

Section start.
Context `{Platform}.

Lemma user_js_ne_LOG_DIR (dir : string) : path_join dir "user.js" ≠ accounts.LOG_DIR.
Proof.
  unfold accounts.LOG_DIR. rewrite !path_join_rel by done.
  change "user.js" with ("use" +:+ "r.js").
  rewrite <- !app_assoc_s. intros Heq.
  apply app_suffix_inj in Heq; [discriminate | done].
Qed.

Lemma ensure_profile_run (account : dict) (dir : string) prefs (w : World) :
  account !! "profile_dir" = Some (VStr dir) →
  accounts.user_js_prefs (py_or (get account "proxy") (VDict ∅)) = Ok prefs →
  dir ≠ EmptyString →
  files w !! dir = None →
  path_join dir "user.js" ∉ dirs w →
  accounts.ensure_profile account w = (profiled dir (accounts.user_js_text prefs) w, Ok ()).
Proof.
  intros Hdir Hprefs Hne Hfile Hjs.
  unfold accounts.ensure_profile, accounts.write_user_js, bind, lift, getitem.
  rewrite Hdir. simpl as_str. cbv iota.
  rewrite makedirs_run by done. rewrite makedirs_run by done.
  rewrite Hprefs. rewrite write_file_run.
  - unfold profiled. simpl. f_equal. f_equal.
    apply set_eq. intros x. rewrite !elem_of_union. tauto.
  - simpl. rewrite !elem_of_union, elem_of_singleton.
    pose proof (user_js_ne_dir dir). tauto.
Qed.

Lemma ensure_profile_inv (account : dict) (w w' : World) :
  accounts.ensure_profile account w = (w', Ok ()) →
  ∃ dir prefs,
    account !! "profile_dir" = Some (VStr dir) ∧
    accounts.user_js_prefs (py_or (get account "proxy") (VDict ∅)) = Ok prefs ∧
    dir ≠ EmptyString ∧
    files w !! dir = None ∧
    (path_join dir "user.js" ∉ dirs w) ∧
    w' = profiled dir (accounts.user_js_text prefs) w.
Proof.
  intros Hrun. pose proof Hrun as Hrun'.
  unfold accounts.ensure_profile, accounts.write_user_js in Hrun.
  apply bind_ok in Hrun as (w1 & v & Hv & Hrun). apply lift_ok in Hv as [-> Hv].
  apply bind_ok in Hrun as (w1 & dir & Hdir & Hrun). apply lift_ok in Hdir as [-> Hdir].
  apply bind_ok in Hrun as (w1 & [] & Hmk & Hrun).
  apply makedirs_inv in Hmk as (Hne & Hfile & ->).
  apply bind_ok in Hrun as (w2 & v' & Hv' & Hrun). apply lift_ok in Hv' as [-> Hv'].
  apply bind_ok in Hrun as (w2 & dir' & Hdir' & Hrun). apply lift_ok in Hdir' as [-> Hdir'].
  apply bind_ok in Hrun as (w2 & [] & Hmk & Hrun).
  apply bind_ok in Hrun as (w3 & prefs & Hp & Hrun). apply lift_ok in Hp as [-> Hp].
  apply makedirs_inv in Hmk as (_ & _ & ->).
  apply write_file_inv in Hrun as (Hjs & _).
  unfold getitem in Hv, Hv'. destruct (account !! "profile_dir") as [pd|] eqn:Hpd; [|done].
  simplify_eq. destruct v; simplify_eq/=.
  exists dir, prefs.
  assert (path_join dir "user.js" ∉ dirs w) as Hjs'.
  { rewrite !elem_of_union in Hjs. tauto. }
  repeat (split; [done|]).
  rewrite (ensure_profile_run account dir prefs w) in Hrun' by done. congruence.
Qed.

Lemma pgrep_inv (pattern : string) (w w' : World) (running : bool) :
  pgrep pattern w = (w', Ok running) →
  w' = w ∧ "pgrep" ∈ executables w ∧
  running = existsb (cmdline_matches pattern) (procs w).
Proof. unfold pgrep. case_bool_decide; [|done]. by intros [= <- <-]. Qed.

Lemma log_file_inv (w w' : World) :
  accounts._log_file w = (w', Ok ()) →
  (accounts.LAUNCHER_LOG ∉ dirs w) ∧
  dirs w' = {[accounts.LOG_DIR]} ∪ dirs w ∧
  executables w' = executables w ∧
  procs w' = procs w ∧
  effects w' = effects w ∧
  (∀ p, p ≠ accounts.LAUNCHER_LOG → files w' !! p = files w !! p).
Proof.
  unfold accounts._log_file. intros Hrun.
  apply bind_ok in Hrun as (w1 & [] & Hmk & Hrun).
  apply makedirs_inv in Hmk as (_ & _ & ->).
  unfold open_append in Hrun. simpl in Hrun.
  case_bool_decide as Hll; [done|].
  assert (accounts.LAUNCHER_LOG ∉ dirs w) by (rewrite elem_of_union in Hll; tauto).
  destruct (files w !! accounts.LAUNCHER_LOG) eqn:Hf; injection Hrun as <-; simpl.
  - done.
  - repeat (split; [done|]). intros p Hp. by rewrite lookup_insert_ne.
Qed.

Lemma popen_inv (cmd : list value) (w w' : World) :
  popen cmd w = (w', Ok ()) →
  ∃ args, all_str cmd = Ok args ∧
          w' = mkWorld (files w) (dirs w) (executables w) (procs w ++ [cmdline args])
                       (effects w ++ [ESpawn args]).
Proof.
  unfold popen. destruct (all_str cmd) as [args|e]; [|done].
  destruct args as [|exe args]; [done|]. case_bool_decide; [|done].
  intros [= <-]. eauto.
Qed.

Lemma spawned_app (w : World) (es : list effect) (w' : World) :
  effects w' = effects w ++ es →
  spawned w' = spawned w ++ omap (fun e => match e with ESpawn args => Some args | _ => None end) es.
Proof. unfold spawned. intros ->. by rewrite omap_app. Qed.

Lemma is_running_run (dir : string) (w : World) :
  "pgrep" ∈ executables w →
  accounts.is_running dir w = (w, Ok (existsb (cmdline_matches dir) (procs w))).
Proof.
  intros Hexe. unfold accounts.is_running, pgrep. by rewrite bool_decide_eq_true_2.
Qed.

Lemma start_account_running (account : dict) (dir : string) (w w' : World) :
  account !! "profile_dir" = Some (VStr dir) →
  accounts.ensure_profile account w = (w', Ok ()) →
  "pgrep" ∈ executables w' →
  existsb (cmdline_matches dir) (procs w') = true →
  accounts.start_account account w = (w', Ok (false, "already_running")).
Proof.
  intros Hdir Hprof Hexe Hrunning.
  unfold accounts.start_account, bind. rewrite Hprof.
  unfold lift, getitem. rewrite Hdir. simpl as_str. cbv iota.
  rewrite is_running_run by done. by rewrite Hrunning.
Qed.

(** C3.  Take an account that no process of the table matches and whose
    launch command line is matched by the probe for its profile directory.
    If a first start_account returns, it returns started, having spawned
    one process; a second start_account right after it returns
    already_running: its probe reports running, the process table is the
    one the first call left and no further process has been spawned. *)
Theorem start_twice_started_then_running (account : dict) (dir : string)
    (w w1 : World) (outcome : bool * string) :
  account !! "profile_dir" = Some (VStr dir) →
  existsb (cmdline_matches dir) (procs w) = false →
  (∀ args, all_str (accounts.launch_cmd account (VStr dir)) = Ok args →
           cmdline_matches dir (cmdline args) = true) →
  accounts.start_account account w = (w1, Ok outcome) →
  outcome = (true, "started") ∧
  (∃ args, spawned w1 = spawned w ++ [args] ∧ procs w1 = procs w ++ [cmdline args]) ∧
  ∃ w2, accounts.start_account account w1 = (w2, Ok (false, "already_running")) ∧
        accounts.is_running dir w2 = (w2, Ok true) ∧
        procs w2 = procs w1 ∧
        spawned w2 = spawned w1.
Proof.
  intros Hdir Hstopped Hmatch Hrun. pose proof Hrun as Hfirst.
  unfold accounts.start_account in Hrun.
  apply bind_ok in Hrun as (wa & [] & Hprof & Hrun).
  apply ensure_profile_inv in Hprof as (dir' & prefs & Hdir' & Hprefs & Hne & Hfile & Hjs & ->).
  assert (dir' = dir) as -> by congruence.
  apply bind_ok in Hrun as (wb & v & Hv & Hrun). apply lift_ok in Hv as [-> Hv].
  unfold getitem in Hv. rewrite Hdir in Hv. injection Hv as <-.
  apply bind_ok in Hrun as (wb & pattern & Hpat & Hrun). apply lift_ok in Hpat as [-> Hpat].
  injection Hpat as <-.
  apply bind_ok in Hrun as (wb & running & Hprobe & Hrun).
  apply pgrep_inv in Hprobe as (-> & Hpgrep & ->).
  unfold profiled in Hpgrep, Hrun. cbn [procs executables] in Hpgrep, Hrun.
  rewrite Hstopped in Hrun.
  apply bind_ok in Hrun as (wc & [] & Hlog & Hrun).
  apply log_file_inv in Hlog as (Hll & Hdirs & Hexe & Hprocs & Heff & Hfiles).
  apply bind_ok in Hrun as (wd & [] & Hspawn & Hrun).
  apply popen_inv in Hspawn as (args & Hargs & ->).
  injection Hrun as <- <-.
  simpl in Hll, Hdirs, Hexe, Hprocs, Heff, Hfiles.
  split; [done|]. split.
  { exists args. split.
    - unfold spawned. simpl. rewrite Heff, !omap_app. simpl. by rewrite app_nil_r.
    - simpl. by rewrite Hprocs. }
  set (w1 := mkWorld (files wc) (dirs wc) (executables wc) (procs wc ++ [cmdline args])
                     (effects wc ++ [ESpawn args])) in *.
  assert (accounts.ensure_profile account w1
          = (profiled dir (accounts.user_js_text prefs) w1, Ok ())) as Hagain.
  { apply ensure_profile_run; try done.
    - simpl. destruct (decide (dir = accounts.LAUNCHER_LOG)) as [->|Hdll].
      + exfalso. apply Hll. apply elem_of_union. left. by apply elem_of_singleton.
      + rewrite Hfiles by done. rewrite lookup_insert_ne; [done|]. apply user_js_ne_dir.
    - simpl. rewrite Hdirs, !elem_of_union, !elem_of_singleton.
      pose proof (user_js_ne_LOG_DIR dir). pose proof (user_js_ne_dir dir). tauto. }
  assert (existsb (cmdline_matches dir) (procs w1) = true) as Hrunning.
  { simpl. rewrite existsb_app. simpl. rewrite (Hmatch args Hargs). by rewrite orb_true_r. }
  assert ("pgrep" ∈ executables (profiled dir (accounts.user_js_text prefs) w1)) as Hexe'.
  { unfold profiled, w1. cbn [executables]. by rewrite Hexe. }
  assert (existsb (cmdline_matches dir)
            (procs (profiled dir (accounts.user_js_text prefs) w1)) = true) as Hrunning'.
  { exact Hrunning. }
  exists (profiled dir (accounts.user_js_text prefs) w1).
  split; [|split; [|split]].
  - by apply (start_account_running account dir).
  - rewrite is_running_run by done. by rewrite Hrunning'.
  - done.
  - unfold spawned, profiled. cbn [effects]. rewrite omap_app. simpl. by rewrite app_nil_r.
Qed.

(** The loop skips an account whose autostart is not truthy, and an
    exception of start_account leaves the loop at once, whatever accounts
    remain. *)
Lemma autostart_loop_skips (acc : dict) (rest started already : list value) (w : World) :
  truthy (get acc "autostart") = false →
  app.autostart_loop (VDict acc :: rest) started already w
  = app.autostart_loop rest started already w.
Proof. intros Hflag. simpl. unfold bind, lift. simpl. by rewrite Hflag. Qed.

Lemma autostart_loop_aborts (acc : dict) (rest started already : list value)
    (w w' : World) (e : exn) :
  truthy (get acc "autostart") = true →
  accounts.start_account acc w = (w', Raise e) →
  app.autostart_loop (VDict acc :: rest) started already w = (w', Raise e).
Proof.
  intros Hflag Hstart. simpl. unfold bind at 1, lift. simpl. rewrite Hflag. simpl.
  unfold bind at 1. by rewrite Hstart.
Qed.

End start.

(** * Further properties of the code *)

(** ** Looking up and removing accounts *)

Lemma py_eq_str_iff (v : value) (s : string) : py_eq v (VStr s) = true ↔ v = VStr s.
Proof.
  split; [|intros ->; simpl; by apply bool_decide_eq_true_2].
  destruct v; simpl; try done. intros Heq%bool_decide_eq_true. congruence.
Qed.

Lemma get_id_iff (d : dict) (account_id : string) :
  py_eq (get d "id") (VStr account_id) = true ↔ d !! "id" = Some (VStr account_id).
Proof.
  rewrite py_eq_str_iff. unfold get.
  destruct (d !! "id") as [v|]; simpl; split; congruence.
Qed.

Lemma find_in_some (items : list value) (account_id : string) (start pos : nat) (d : dict) :
  accounts.find_in items account_id start = Ok (Some (pos, d)) ↔
  ∃ i, pos = start + i ∧ items !! i = Some (VDict d) ∧
       d !! "id" = Some (VStr account_id) ∧
       ∀ j item, j < i → items !! j = Some item → other_account account_id item.
Proof.
  revert start. induction items as [|item items IH]; intros start; simpl.
  { split; [done|]. by intros (i & _ & Hi & _). }
  destruct item as [| | | | |d0]; simpl.
  1-5: split; [done|]; intros (i & _ & Hi & _ & Hbefore);
       destruct i as [|i]; [done|];
       by destruct (Hbefore 0 _ ltac:(lia) eq_refl) as (? & ? & _).
  destruct (py_eq (get d0 "id") (VStr account_id)) eqn:Heq.
  - apply get_id_iff in Heq. split.
    + intros [= <- <-]. exists 0. split; [lia|]. split; [done|]. split; [done|]. intros; lia.
    + intros (i & -> & Hi & Hid & Hbefore). destruct i as [|i].
      * simpl in Hi. injection Hi as <-. do 3 f_equal. lia.
      * destruct (Hbefore 0 _ ltac:(lia) eq_refl) as (d' & [= <-] & Hne). done.
  - assert (d0 !! "id" ≠ Some (VStr account_id)) as Hne.
    { intros Hid%get_id_iff. congruence. }
    rewrite IH. split.
    + intros (i & -> & Hi & Hid & Hbefore). exists (S i).
      split; [lia|]. split; [done|]. split; [done|].
      intros [|j] item Hj Hitem.
      * injection Hitem as <-. by exists d0.
      * apply (Hbefore j); [lia | done].
    + intros (i & -> & Hi & Hid & Hbefore). destruct i as [|i].
      * simpl in Hi. injection Hi as ->. done.
      * exists i. split; [lia|]. split; [done|]. split; [done|].
        intros j item Hj Hitem. apply (Hbefore (S j)); [lia | done].
Qed.

Lemma find_in_none (items : list value) (account_id : string) (start : nat) :
  accounts.find_in items account_id start = Ok None ↔
  Forall (other_account account_id) items.
Proof.
  revert start. induction items as [|item items IH]; intros start; simpl.
  { split; [by constructor | done]. }
  destruct item as [| | | | |d0]; simpl.
  1-5: split; [done|]; intros Hall; apply Forall_cons in Hall as [(? & ? & _) _]; done.
  destruct (py_eq (get d0 "id") (VStr account_id)) eqn:Heq.
  - apply get_id_iff in Heq. split; [done|].
    intros Hall. apply Forall_cons in Hall as [(d' & [= <-] & Hne) _]. done.
  - assert (d0 !! "id" ≠ Some (VStr account_id)) as Hne.
    { intros Hid%get_id_iff. congruence. }
    rewrite IH. split.
    + intros Hall. apply Forall_cons. split; [by exists d0 | done].
    + intros Hall. by apply Forall_cons in Hall as [_ ?].
Qed.

(** X1.  find_account on a list returns the first item whose id is the one
    asked for, with its position, and returns None exactly when every
    item is a dict with another id. *)
Theorem find_account_first_match (items : list value) (account_id : string) :
  (∀ pos d,
     accounts.find_account (VList items) account_id = Ok (Some (pos, d)) ↔
     items !! pos = Some (VDict d) ∧
     d !! "id" = Some (VStr account_id) ∧
     ∀ j item, j < pos → items !! j = Some item → other_account account_id item) ∧
  (accounts.find_account (VList items) account_id = Ok None ↔
   Forall (other_account account_id) items).
Proof.
  unfold accounts.find_account. simpl. split.
  - intros pos d. rewrite find_in_some. split.
    + intros (i & -> & Hrest). done.
    + intros Hrest. exists pos. done.
  - apply find_in_none.
Qed.

Lemma without_id_ok (items kept : list value) (account_id : string) :
  app.without_id items account_id = Ok kept →
  Forall (other_account account_id) kept ∧
  kept `sublist_of` items ∧
  ∀ item, item ∈ items → other_account account_id item → item ∈ kept.
Proof.
  revert kept. induction items as [|item items IH]; intros kept; simpl.
  { intros [= <-]. split; [constructor|]. split; [done|]. by intros ? ?%elem_of_nil. }
  destruct item as [| | | | |d0]; simpl; try done.
  destruct (app.without_id items account_id) as [kept0|e]; simpl; [|done].
  destruct (IH kept0 eq_refl) as (Hall & Hsub & Hin).
  unfold py_ne. destruct (py_eq (get d0 "id") (VStr account_id)) eqn:Heq; simpl.
  - apply get_id_iff in Heq. intros [= <-]. split; [done|]. split.
    + by apply sublist_cons.
    + intros item [->|Hitem]%elem_of_cons Hother; [|by apply Hin].
      destruct Hother as (d' & [= <-] & Hne). done.
  - assert (d0 !! "id" ≠ Some (VStr account_id)) as Hne.
    { intros Hid%get_id_iff. congruence. }
    intros [= <-]. split; [|split].
    + apply Forall_cons. split; [by exists d0 | done].
    + by apply sublist_skip.
    + intros item [->|Hitem]%elem_of_cons Hother.
      * apply list_elem_of_here.
      * apply elem_of_cons. right. by apply Hin.
Qed.

(** X2.  The list that delete_account keeps holds every item with another
    id, in the order of the store, and nothing else; looking the deleted
    id up in it finds nothing. *)
Theorem without_id_removes_every_match (items kept : list value) (account_id : string) :
  app.without_id items account_id = Ok kept →
  kept `sublist_of` items ∧
  (∀ item, item ∈ kept ↔ item ∈ items ∧ other_account account_id item) ∧
  accounts.find_account (VList kept) account_id = Ok None.
Proof.
  intros Hkept. destruct (without_id_ok _ _ _ Hkept) as (Hall & Hsub & Hin).
  split; [done|]. split.
  - intros item. split.
    + intros Hitem. split.
      * by eapply elem_of_sublist.
      * by eapply Forall_forall in Hall.
    + intros [Hitem Hother]. by apply Hin.
  - unfold accounts.find_account. simpl. by apply find_in_none.
Qed.

(** ** What the functions leave alone *)

Lemma bind_inv {A B} (m : io A) (k : A → io B) (w w' : World) (r : result B) :
  bind m k w = (w', r) →
  (∃ e, m w = (w', Raise e) ∧ r = Raise e) ∨
  (∃ w1 a, m w = (w1, Ok a) ∧ k a w1 = (w', r)).
Proof.
  unfold bind. destruct (m w) as [w1 [a|e]]; [eauto|].
  intros [= <- <-]. eauto.
Qed.

Lemma preserves_ret {A} (R : relation World) `{!Reflexive R} (a : A) : preserves R (ret a).
Proof. intros w w' r [= <- _]. done. Qed.

Lemma preserves_raise {A} (R : relation World) `{!Reflexive R} e : preserves R (@raise A e).
Proof. intros w w' r [= <- _]. done. Qed.

Lemma preserves_lift {A} (R : relation World) `{!Reflexive R} (x : result A) :
  preserves R (lift x).
Proof. intros w w' r [= <- _]. done. Qed.

Lemma preserves_bind {A B} (R : relation World) `{!Transitive R} (m : io A) (k : A → io B) :
  preserves R m → (∀ a, preserves R (k a)) → preserves R (bind m k).
Proof.
  intros Hm Hk w w' r Hrun.
  apply bind_inv in Hrun as [(e & Hrun & _)|(w1 & a & Hrun & Hrest)].
  - by eapply Hm.
  - etrans; [by eapply Hm | by eapply Hk].
Qed.

Ltac preserves_step :=
  first
    [ apply preserves_ret; apply _
    | apply preserves_raise; apply _
    | apply preserves_lift; apply _
    | apply preserves_bind; [apply _ | | intros ?]
    | progress case_match ].

Global Instance same_but_dirs_preorder : PreOrder same_but_dirs.
Proof.
  split.
  - by intros w.
  - intros w1 w2 w3 (?&?&?&?) (?&?&?&?). repeat split; congruence.
Qed.

Lemma makedirs_same_but_dirs path : preserves same_but_dirs (makedirs path).
Proof.
  intros w w' r. unfold makedirs. repeat case_match; intros [= <- _]; done.
Qed.

Lemma path_exists_same_but_dirs path : preserves same_but_dirs (path_exists path).
Proof. intros w w' r [= <- _]. done. Qed.

Lemma read_file_same_but_dirs path : preserves same_but_dirs (read_file path).
Proof. intros w w' r. unfold read_file. repeat case_match; intros [= <- _]; done. Qed.

Section frames.
Context `{Platform}.

Global Instance same_store_preorder : PreOrder same_store.
Proof.
  split.
  - by intros w.
  - intros w1 w2 w3. unfold same_store. congruence.
Qed.










(** ** Saving and loading *)



End frames.

(** ** The endpoints on the store *)



Section store_endpoints.
Context `{Platform}.


End store_endpoints.

(** ** Validation raises nothing but ValidationError 1001 *)

Ltac invalid_step :=
  first
    [ apply routcomes_bind with (mid := anything); [|intros ? _]
    | progress (simpl routcomes)
    | exact I
    | by eexists
    | progress case_match ].

Section invalid.
Context `{Platform}.

Lemma _validate_proxy_obj_invalid obj prefix :
  routcomes anything invalid_input (accounts._validate_proxy_obj obj prefix).
Proof.
  unfold accounts._validate_proxy_obj, accounts.invalid. repeat invalid_step.
Qed.

Lemma validate_proxy_keys_invalid proxy keys res :
  routcomes anything invalid_input (accounts.validate_proxy_keys proxy keys res).
Proof.
  revert res. induction keys as [|key keys IH]; intros res; simpl; [done|].
  repeat first [apply IH | apply _validate_proxy_obj_invalid | invalid_step].
Qed.

Lemma validate_proxy_invalid proxy :
  routcomes anything invalid_input (accounts.validate_proxy proxy).
Proof.
  unfold accounts.validate_proxy, accounts.invalid.
  repeat first [apply validate_proxy_keys_invalid | invalid_step].
Qed.

Lemma validate_account_payload_invalid data partial :
  routcomes anything invalid_input (accounts.validate_account_payload data partial).
Proof.
  unfold accounts.validate_account_payload, accounts.invalid.
  repeat first [apply validate_proxy_invalid | invalid_step].
Qed.

(** X6.  Whatever the body of the request, a payload that validation
    rejects is rejected with ValidationError code 1001 and nothing else;
    the create and the update endpoint then answer with that message, code
    1001 and status 400, in the world they were called in: nothing has
    been loaded, written or started. *)
Theorem rejected_payload_changes_nothing (body : value) (partial : bool) (e : exn) :
  accounts.validate_account_payload (py_or body (VDict ∅)) partial = Raise e →
  ∃ message,
    e = ValidationError message 1001 ∧
    (partial = false →
     ∀ ts entropy w,
       app.create_account body ts entropy w
       = (w, Ok (app.api_response 1001 message VNone 400))) ∧
    (partial = true →
     ∀ account_id w,
       app.update_account account_id body w
       = (w, Ok (app.api_response 1001 message VNone 400))).
Proof.
  intros Hval.
  pose proof (validate_account_payload_invalid (py_or body (VDict ∅)) partial) as Hinv.
  rewrite Hval in Hinv. destruct Hinv as [message ->].
  exists message. split; [done|]. split; intros ->.
  - intros ts entropy w. unfold app.create_account, app.handle_validation_error, bind, lift.
    by rewrite Hval.
  - intros account_id w. unfold app.update_account, app.handle_validation_error, bind, lift.
    by rewrite Hval.
Qed.
End invalid.

(** ** The endpoints on a corrupt store and on an unknown identifier *)

Section answers.
Context `{Platform} `{Signals}.


(** X8.  For an identifier that the loaded store does not hold, the get,
    start and stop endpoints, and the update endpoint on a payload that
    validation accepts, answer with code 1002 and status 404 in the world
    that loading left: nothing is written, removed, started or
    signalled. *)
Theorem unknown_account_answers_1002 (account_id : string) (items : value)
    (w w1 : World) :
  accounts.load_accounts w = (w1, Ok items) →
  accounts.find_account items account_id = Ok None →
  app.get_account account_id w = (w1, Ok app.not_found) ∧
  app.start_account account_id w = (w1, Ok app.not_found) ∧
  app.stop_account account_id w = (w1, Ok app.not_found) ∧
  (∀ body cleaned,
     accounts.validate_account_payload (py_or body (VDict ∅)) true = Ok cleaned →
     app.update_account account_id body w = (w1, Ok app.not_found)) ∧
  app.code app.not_found = 1002%Z ∧ app.http_status app.not_found = 404%Z.
Proof.
  intros Hload Hfind.
  unfold app.get_account, app.start_account, app.stop_account, app.update_account,
    app.handle_validation_error, app.get_accounts, bind, lift.
  rewrite Hload, Hfind. repeat split; try done.
  intros body cleaned Hval. by rewrite Hval, ?Hload, ?Hfind.
Qed.

(** X9.  Deleting an account that the store holds: the store file is
    rewritten with the items of every other id, the answer is deleted, and
    the profile directory of the account is removed exactly when
    delete_profile is requested as true and the directory exists; without
    the request the directories are those that were there. *)
Theorem delete_account_found (account_id dir : string) (arg : option string)
    (l kept : list value) (pos : nat) (target : dict) (w w1 : World) :
  data_dirs_available w →
  (accounts.ACCOUNTS_FILE ∉ dirs w) →
  accounts.load_accounts w = (w1, Ok (VList l)) →
  accounts.find_account (VList l) account_id = Ok (Some (pos, target)) →
  app.without_id l account_id = Ok kept →
  target !! "profile_dir" = Some (VStr dir) →
  ∃ w2 (delete_profile : bool),
    delete_profile = bool_decide (str_lower (default "false" arg) = "true") ∧
    app.delete_account account_id arg w
    = (w2, Ok (app.ok_response
                 (VDict (<["result" := VStr "deleted"]>
                         {["delete_profile" := VBool delete_profile]})))) ∧
    effects w2 =
    effects w1 ++ [EWrite accounts.ACCOUNTS_FILE (Json (VList kept))] ++
    (if delete_profile && bool_decide (dir ∈ dirs w1) then [ERmtree dir] else []) ∧
    (delete_profile = true → dir ∉ dirs w2) ∧
    (delete_profile = false →
     dirs w2 = dirs w1 ∧
     files w2 = <[accounts.ACCOUNTS_FILE := Json (VList kept)]> (files w1)).
Proof.
  intros Hav Hnd Hload Hfind Hkept Hdir.
  destruct (find_account_found _ _ _ _ Hfind) as [_ Htruthy].
  destruct (load_accounts_returns _ _ _ Hav Hnd Hload) as (Hfile & Hav1 & Hnd1 & Hdirs & _).
  unfold app.delete_account, app.handle_validation_error, app.get_accounts, bind.
  rewrite Hload. unfold lift at 1. rewrite Hfind, Htruthy.
  unfold lift at 1. simpl iterate. cbv iota. unfold lift at 1. rewrite Hkept.
  rewrite (save_accounts_run (VList kept) w1 Hav1 Hnd1) by eauto.
  unfold ret at 1. rewrite Hdirs.
  unfold get. rewrite Hdir.
  change (default VNone (Some (VStr dir))) with (VStr dir).
  destruct (bool_decide (str_lower (default "false" arg) = "true")) eqn:Hflag.
  - unfold lift, as_str. rewrite delete_profile_dir_run. simpl dirs.
    destruct (bool_decide (dir ∈ dirs w1)) eqn:Hin.
    + apply bool_decide_eq_true in Hin.
      unfold rmtree. simpl dirs. rewrite bool_decide_eq_true_2 by done. simpl.
      eexists _, true. split; [done|]. split; [reflexivity|]. simpl.
      split; [by rewrite <- app_assoc|].
      split; [|done]. intros _ [Hunder _]%elem_of_filter. unfold under in Hunder.
      by rewrite bool_decide_eq_true_2 in Hunder.
    + apply bool_decide_eq_false in Hin. simpl.
      eexists _, true. split; [done|]. split; [reflexivity|]. simpl. done.
  - simpl. eexists _, false. split; [done|]. split; [reflexivity|]. simpl. done.
Qed.
End answers.

(** ** The supervisor *)

#[global] Instance same_processes_preorder : PreOrder same_processes.
Proof.
  split.
  - by intros w.
  - intros w1 w2 w3 (?&?&?) (?&?&?). repeat split; congruence.
Qed.

Lemma same_but_dirs_same_processes (w w' : World) :
  same_but_dirs w w' → same_processes w w'.
Proof. intros (_ & He & Hp & Heff). unfold same_processes, spawned. by rewrite He, Hp, Heff. Qed.

Lemma makedirs_same_processes path : preserves same_processes (makedirs path).
Proof.
  intros w w' r Hrun.
  by apply same_but_dirs_same_processes, (makedirs_same_but_dirs _ _ _ _ Hrun).
Qed.

Lemma write_file_same_processes path d : preserves same_processes (write_file path d).
Proof.
  intros w w' r. unfold write_file. case_match; intros [= <- _]; [done|].
  unfold same_processes, spawned. simpl. rewrite omap_app. simpl. by rewrite app_nil_r.
Qed.

Lemma open_append_same_processes path : preserves same_processes (open_append path).
Proof.
  intros w w' r. unfold open_append. repeat case_match; intros [= <- _]; done.
Qed.

Lemma popen_outcome (cmd : list value) (w w' : World) (r : result unit) :
  popen cmd w = (w', r) →
  (∃ e, r = Raise e ∧ w' = w) ∨
  (∃ args, r = Ok () ∧ all_str cmd = Ok args ∧
           procs w' = procs w ++ [cmdline args] ∧
           spawned w' = spawned w ++ [args] ∧
           files w' = files w ∧ dirs w' = dirs w ∧ executables w' = executables w).
Proof.
  unfold popen. destruct (all_str cmd) as [args|e]; [|intros [= <- <-]; eauto].
  destruct args as [|exe args]; [intros [= <- <-]; eauto|].
  case_bool_decide; intros [= <- <-]; [|eauto].
  right. eexists. split; [done|]. split; [done|]. simpl.
  unfold spawned. simpl. rewrite omap_app. done.
Qed.

Section supervisor.
Context `{Platform}.

Lemma write_user_js_same_processes account :
  preserves same_processes (accounts.write_user_js account).
Proof.
  unfold accounts.write_user_js.
  repeat first [ apply makedirs_same_processes | apply write_file_same_processes
               | preserves_step ].
Qed.

Lemma ensure_profile_same_processes account :
  preserves same_processes (accounts.ensure_profile account).
Proof.
  unfold accounts.ensure_profile.
  repeat first [ apply makedirs_same_processes | apply write_user_js_same_processes
               | preserves_step ].
Qed.

Lemma log_file_same_processes : preserves same_processes accounts._log_file.
Proof.
  unfold accounts._log_file.
  repeat first [ apply makedirs_same_processes | apply open_append_same_processes
               | preserves_step ].
Qed.

Lemma pgrep_outcome (pattern : string) (w w' : World) (r : result bool) :
  pgrep pattern w = (w', r) →
  w' = w ∧ ∀ running, r = Ok running → running = existsb (cmdline_matches pattern) (procs w).
Proof. unfold pgrep. case_bool_decide; intros [= <- <-]; split; congruence. Qed.

(** What one call of start_account does to the processes, however it
    ends. *)
Lemma start_account_inv (account : dict) (w w' : World)
    (r : result (bool * string)) :
  accounts.start_account account w = (w', r) →
  match r with
  | Ok (true, status) =>
      status = "started" ∧
      ∃ dir args,
        account !! "profile_dir" = Some (VStr dir) ∧
        existsb (cmdline_matches dir) (procs w) = false ∧
        all_str (accounts.launch_cmd account (VStr dir)) = Ok args ∧
        procs w' = procs w ++ [cmdline args] ∧
        spawned w' = spawned w ++ [args]
  | Ok (false, status) =>
      status = "already_running" ∧
      (∃ dir, account !! "profile_dir" = Some (VStr dir) ∧
              existsb (cmdline_matches dir) (procs w) = true) ∧
      procs w' = procs w ∧ spawned w' = spawned w
  | Raise _ => procs w' = procs w ∧ spawned w' = spawned w
  end.
Proof.
  unfold accounts.start_account. intros Hrun.
  apply bind_inv in Hrun as [(e & Hprof & ->)|(wa & [] & Hprof & Hrun)].
  { by destruct (ensure_profile_same_processes _ _ _ _ Hprof) as (? & ? & _). }
  destruct (ensure_profile_same_processes _ _ _ _ Hprof) as (Hpa & Hsa & Hea).
  apply bind_inv in Hrun as [(e & Hv & ->)|(wb & v & Hv & Hrun)].
  { injection Hv as <- _. done. }
  apply lift_ok in Hv as [-> Hv].
  apply bind_inv in Hrun as [(e & Hpat & ->)|(wb & dir & Hpat & Hrun)].
  { injection Hpat as <- _. done. }
  apply lift_ok in Hpat as [-> Hpat].
  assert (account !! "profile_dir" = Some (VStr dir)) as Hdir.
  { unfold getitem in Hv. destruct (account !! "profile_dir"); [|done].
    injection Hv as ->. destruct v; simplify_eq/=. done. }
  assert (v = VStr dir) as -> by (destruct v; simplify_eq/=; done).
  apply bind_inv in Hrun as [(e & Hprobe & ->)|(wb & running & Hprobe & Hrun)].
  { apply pgrep_outcome in Hprobe as [-> _]. done. }
  apply pgrep_outcome in Hprobe as [-> Hrunning].
  specialize (Hrunning _ eq_refl). rewrite Hpa in Hrunning.
  destruct running.
  { injection Hrun as <- <-. split; [done|]. split; [eauto | done]. }
  apply bind_inv in Hrun as [(e & Hlog & ->)|(wc & [] & Hlog & Hrun)].
  { destruct (log_file_same_processes _ _ _ Hlog) as (? & ? & _). split; congruence. }
  destruct (log_file_same_processes _ _ _ Hlog) as (Hpc & Hsc & Hec).
  apply bind_inv in Hrun as [(e & Hspawn & ->)|(wd & [] & Hspawn & Hrun)].
  { apply popen_outcome in Hspawn as [(e' & _ & ->)|(args & [=] & _)]. split; congruence. }
  apply popen_outcome in Hspawn as [(e' & [=] & _)|(args & _ & Hargs & Hpd & Hsd & _)].
  injection Hrun as <- <-. split; [done|]. exists dir, args.
  repeat split; try done; congruence.
Qed.

(** X10.  start_account, on an account that has an id (the log line after
    the launch reads it), spawns a process exactly when it returns
    started.  If it returns started, the probe had found no match and
    exactly one process, the launch command of the account, has been
    spawned and added to the process table.  In every other case, whether
    it returns already_running, which it does only when the probe had
    found a match, or raises, nothing has been spawned and the process
    table is what it was.  It returns no third outcome. *)
Theorem start_account_spawns_iff_started (account : dict) (w w' : World)
    (r : result (bool * string)) :
  is_Some (account !! "id") →
  accounts.start_account account w = (w', r) →
  (r = Ok (true, "started") ∧
   ∃ dir args,
     account !! "profile_dir" = Some (VStr dir) ∧
     existsb (cmdline_matches dir) (procs w) = false ∧
     all_str (accounts.launch_cmd account (VStr dir)) = Ok args ∧
     procs w' = procs w ++ [cmdline args] ∧
     spawned w' = spawned w ++ [args]) ∨
  (procs w' = procs w ∧ spawned w' = spawned w ∧
   ((∃ e, r = Raise e) ∨
    (r = Ok (false, "already_running") ∧
     ∃ dir, account !! "profile_dir" = Some (VStr dir) ∧
            existsb (cmdline_matches dir) (procs w) = true))).
Proof.
  intros _ Hrun. apply start_account_inv in Hrun.
  destruct r as [[[] status]|e].
  - destruct Hrun as (-> & Hrest). by left.
  - destruct Hrun as (-> & Hdir & Hprocs & Hspawned). right. eauto.
  - destruct Hrun as (Hprocs & Hspawned). right. eauto.
Qed.

(** X11.  Provisioning is idempotent: after ensure_profile has returned, a
    second ensure_profile on the same account returns too and leaves the
    files, the directories and the process table as the first left
    them. *)
Theorem ensure_profile_idempotent (account : dict) (w w1 : World) :
  accounts.ensure_profile account w = (w1, Ok ()) →
  ∃ w2, accounts.ensure_profile account w1 = (w2, Ok ()) ∧
        files w2 = files w1 ∧ dirs w2 = dirs w1 ∧ procs w2 = procs w1.
Proof.
  intros Hrun.
  apply ensure_profile_inv in Hrun as (dir & prefs & Hdir & Hprefs & Hne & Hfile & Hjs & ->).
  pose proof (user_js_ne_dir dir) as Hjd.
  rewrite (ensure_profile_run account dir prefs); try done.
  - eexists. split; [done|]. unfold profiled. simpl.
    rewrite insert_insert_eq. split; [done|]. split; [|done].
    apply set_eq. intros x. rewrite !elem_of_union. tauto.
  - unfold profiled. simpl. by rewrite lookup_insert_ne.
  - unfold profiled. simpl. rewrite elem_of_union, elem_of_singleton. tauto.
Qed.
End supervisor.

Section stopping.
Context `{Platform} `{Signals}.

(** X12.  stop_account never writes, removes or spawns, and returns one of
    three outcomes.  Without a process that matches the profile directory
    it returns already_stopped in the world it was called in, pkill not
    having been run; with one, pkill decides between stopped and
    stop_failed and leaves the process table, and stopped is returned
    only for an account that has an id. *)
Theorem stop_account_outcomes (account : dict) (w w' : World) (outcome : bool * string) :
  accounts.stop_account account w = (w', Ok outcome) →
  ∃ dir,
    account !! "profile_dir" = Some (VStr dir) ∧
    files w' = files w ∧ dirs w' = dirs w ∧ effects w' = effects w ∧
    if existsb (cmdline_matches dir) (procs w)
    then procs w' = (pkill_f dir (procs w)).2 ∧
         if (pkill_f dir (procs w)).1
         then outcome = (true, "stopped") ∧ is_Some (account !! "id")
         else outcome = (false, "stop_failed")
    else w' = w ∧ outcome = (false, "already_stopped").
Proof.
  unfold accounts.stop_account. intros Hrun.
  apply bind_ok in Hrun as (wa & v & Hv & Hrun). apply lift_ok in Hv as [-> Hv].
  apply bind_ok in Hrun as (wa & dir & Hpat & Hrun). apply lift_ok in Hpat as [-> Hpat].
  assert (account !! "profile_dir" = Some (VStr dir)) as Hdir.
  { unfold getitem in Hv. destruct (account !! "profile_dir"); [|done].
    injection Hv as ->. destruct v; simplify_eq/=. done. }
  exists dir. split; [done|].
  apply bind_ok in Hrun as (wa & running & Hprobe & Hrun).
  apply pgrep_inv in Hprobe as (-> & _ & ->).
  destruct (existsb (cmdline_matches dir) (procs w)); simpl in Hrun.
  - unfold bind, lift, getitem in Hrun. rewrite Hdir in Hrun. simpl in Hrun.
    unfold pkill in Hrun. case_bool_decide; [|done]. simpl in Hrun.
    destruct (pkill_f dir (procs w)) as [killed table]; simpl in *.
    destruct killed; [|injection Hrun as <- <-; done].
    destruct (account !! "id") as [i|] eqn:Hid; [|done]. simpl in Hrun.
    injection Hrun as <- <-. simpl. eauto 10.
  - injection Hrun as <- <-. done.
Qed.

Lemma start_account_status (account : dict) (w w' : World) (outcome : bool * string) :
  accounts.start_account account w = (w', Ok outcome) →
  outcome = (true, "started") ∨ outcome = (false, "already_running").
Proof.
  unfold accounts.start_account. intros Hrun.
  apply bind_ok in Hrun as (wa & [] & _ & Hrun).
  apply bind_ok in Hrun as (wb & v & _ & Hrun).
  apply bind_ok in Hrun as (wc & dir & _ & Hrun).
  apply bind_ok in Hrun as (wd & running & _ & Hrun).
  destruct running; [injection Hrun as _ <-; by right|].
  apply bind_ok in Hrun as (we & [] & _ & Hrun).
  apply bind_ok in Hrun as (wf & [] & _ & Hrun).
  injection Hrun as _ <-. by left.
Qed.

Lemma stop_account_status (account : dict) (w w' : World) (outcome : bool * string) :
  accounts.stop_account account w = (w', Ok outcome) →
  outcome = (true, "stopped") ∨ outcome = (false, "stop_failed") ∨
  outcome = (false, "already_stopped").
Proof.
  unfold accounts.stop_account. intros Hrun.
  apply bind_ok in Hrun as (wa & v & _ & Hrun).
  apply bind_ok in Hrun as (wb & dir & _ & Hrun).
  apply bind_ok in Hrun as (wc & running & _ & Hrun).
  destruct running; simpl in Hrun; [|injection Hrun as _ <-; tauto].
  apply bind_ok in Hrun as (wd & v' & _ & Hrun).
  apply bind_ok in Hrun as (we & dir' & _ & Hrun).
  apply bind_ok in Hrun as (wf & killed & _ & Hrun).
  destruct killed; [|injection Hrun as _ <-; tauto].
  apply bind_ok in Hrun as (wg & i & _ & Hrun). injection Hrun as _ <-. tauto.
Qed.

(** X13.  The exit status of the launcher script.  start exits with 0 and
    prints started or already_running whenever the account exists and
    start_account returns, and with 1 only for an account it does not
    find; stop exits with 0 for stopped and already_stopped, and with 1
    for stop_failed and for an account it does not find. *)
Theorem account_launcher_exit_status (action account_id : string) (w w' : World)
    (status : Z) (out : account_launcher.stream) (line : string) :
  account_launcher.main action account_id w = (w', Ok (status, (out, line))) →
  (status = 1%Z ∧ out = account_launcher.Stderr ∧
   line = "account " +:+ account_id +:+ " not found" ∧
   ∃ items, accounts.load_accounts w = (w', Ok items) ∧
            accounts.find_account items account_id = Ok None) ∨
  (out = account_launcher.Stdout ∧
   if bool_decide (action = "start")
   then status = 0%Z ∧ (line = "started" ∨ line = "already_running")
   else (status = 0%Z ∧ (line = "stopped" ∨ line = "already_stopped")) ∨
        (status = 1%Z ∧ line = "stop_failed")).
Proof.
  unfold account_launcher.main, account_launcher.start, account_launcher.stop.
  intros Hrun.
  destruct (bool_decide (action = "start")).
  - apply bind_ok in Hrun as (w1 & items & Hload & Hrun).
    apply bind_ok in Hrun as (w2 & acc & Hfind & Hrun). apply lift_ok in Hfind as [-> Hfind].
    destruct acc as [[pos acc]|].
    + destruct (find_account_found _ _ _ _ Hfind) as [_ Htruthy]. rewrite Htruthy in Hrun.
      apply bind_ok in Hrun as (w3 & outcome & Hstart & Hrun).
      apply start_account_status in Hstart.
      injection Hrun as <- <- <- <-. right. split; [done|].
      destruct Hstart as [-> | ->]; simpl; eauto.
    + injection Hrun as <- <- <- <-. left. eauto 10.
  - apply bind_ok in Hrun as (w1 & items & Hload & Hrun).
    apply bind_ok in Hrun as (w2 & acc & Hfind & Hrun). apply lift_ok in Hfind as [-> Hfind].
    destruct acc as [[pos acc]|].
    + destruct (find_account_found _ _ _ _ Hfind) as [_ Htruthy]. rewrite Htruthy in Hrun.
      apply bind_ok in Hrun as (w3 & outcome & Hstop & Hrun).
      apply stop_account_status in Hstop.
      injection Hrun as <- <- <- <-. right. split; [done|].
      destruct Hstop as [-> | [-> | ->]]; simpl; eauto.
    + injection Hrun as <- <- <- <-. left. eauto 10.
Qed.
End stopping.

(** ** Account identifiers *)

Lemma app_prefix_inj (a b s t : string) :
  String.length s = String.length t → a +:+ s = b +:+ t → a = b.
Proof.
  intros Hlen. revert b. induction a as [|c a IH]; intros [|d b] Heq.
  - done.
  - apply (f_equal String.length) in Heq.
    rewrite !app_length_s in Heq. simpl in Heq. lia.
  - apply (f_equal String.length) in Heq.
    rewrite !app_length_s in Heq. simpl in Heq. lia.
  - rewrite !app_cons in Heq. injection Heq as -> Heq. f_equal. by eapply IH.
Qed.

Lemma byte_of_hex_of_byte (b : Byte.byte) :
  byte_of_hex (accounts.hex_of_byte b) = Some b.
Proof. by destruct b. Qed.

Lemma hex_of_byte_inj (b b' : Byte.byte) :
  accounts.hex_of_byte b = accounts.hex_of_byte b' → b = b'.
Proof.
  intros Heq. apply (f_equal byte_of_hex) in Heq.
  rewrite !byte_of_hex_of_byte in Heq. congruence.
Qed.

Lemma token_hex3_inj (e e' : Byte.byte * Byte.byte * Byte.byte) :
  accounts.token_hex3 e = accounts.token_hex3 e' → e = e'.
Proof.
  destruct e as [[b0 b1] b2], e' as [[c0 c1] c2]. unfold accounts.token_hex3.
  unfold accounts.hex_of_byte at 1 2 3 4 5 6. rewrite !app_cons.
  intros [= H0 H0' H1 H1' H2 H2'].
  assert (accounts.hex_of_byte b0 = accounts.hex_of_byte c0) as E0
    by (unfold accounts.hex_of_byte; congruence).
  assert (accounts.hex_of_byte b1 = accounts.hex_of_byte c1) as E1
    by (unfold accounts.hex_of_byte; congruence).
  assert (accounts.hex_of_byte b2 = accounts.hex_of_byte c2) as E2
    by (unfold accounts.hex_of_byte; congruence).
  apply hex_of_byte_inj in E0, E1, E2. congruence.
Qed.

Lemma token_hex3_length (e : Byte.byte * Byte.byte * Byte.byte) :
  String.length (accounts.token_hex3 e) = 6.
Proof. by destruct e as [[b0 b1] b2]. Qed.

Lemma str_of_int_inj (z z' : Z) : str_of_int z = str_of_int z' → z = z'.
Proof.
  unfold str_of_int. intros Heq. apply (f_equal NilZero.int_of_string) in Heq.
  assert (∀ n, NilZero.int_of_string (NilZero.string_of_int (Z.to_int n))
               = Some (Z.to_int n)) as Hround.
  { intros n. apply NilZero.isi; destruct n as [|p|p]; simpl; try discriminate.
    - intros [= Hp]. by apply Unsigned.to_uint_nonnil in Hp.
    - intros [= Hp]. by apply Unsigned.to_uint_nonnil in Hp. }
  rewrite !Hround in Heq. injection Heq as Heq. by apply DecimalZ.to_int_inj.
Qed.

(** X14.  Two identifiers that generate_account_id makes are equal only if
    they were made from the same clock reading and the same random bytes;
    each one starts with acc- and holds no path separator. *)
Theorem generate_account_id_injective (ts ts' : Z)
    (entropy entropy' : Byte.byte * Byte.byte * Byte.byte) :
  (accounts.generate_account_id ts entropy = accounts.generate_account_id ts' entropy' →
   ts = ts' ∧ entropy = entropy') ∧
  String.prefix "acc-" (accounts.generate_account_id ts entropy) = true ∧
  no_sep (accounts.generate_account_id ts entropy) = true.
Proof.
  split; [|split; [|apply no_sep_account_id]].
  - unfold accounts.generate_account_id. intros Heq.
    apply (inj _) in Heq.
    assert (String.length ("-" +:+ accounts.token_hex3 entropy)
            = String.length ("-" +:+ accounts.token_hex3 entropy')) as Hlen.
    { by rewrite !app_length_s, !token_hex3_length. }
    pose proof (app_suffix_inj _ _ _ _ Hlen Heq) as Hhex.
    pose proof (app_prefix_inj _ _ _ _ Hlen Heq) as Hts.
    apply (inj _) in Hhex. split; [by apply str_of_int_inj | by apply token_hex3_inj].
  - unfold accounts.generate_account_id. rewrite !app_cons. simpl.
    by destruct (_ +:+ _).
Qed.

(** ** What validation lets through *)

Section validated.
Context `{Platform}.

Lemma _validate_proxy_obj_ok (obj entry : value) (prefix : string) :
  accounts._validate_proxy_obj obj prefix = Ok entry →
  ∃ d, obj = VDict d ∧ cleaned_endpoint d entry.
Proof.
  destruct obj as [| | | | |d]; try discriminate.
  unfold accounts._validate_proxy_obj. intros Hv. exists d. split; [done|].
  rbind_inv. injection Hv as <-.
  unfold cleaned_endpoint, optional_text.
  destruct (get d "host") as [| | |host| |] eqn:Hhost; try discriminate.
  case_bool_decide as Hstrip; [discriminate|]. injection Ha as <-.
  assert (d !! "host" = Some (VStr host)) as Hh.
  { unfold get in Hhost. destruct (d !! "host"); simpl in Hhost; congruence. }
  destruct (as_int (get d "port")) as [n|] eqn:Hport; [|discriminate].
  destruct (1 <=? n)%Z eqn:Hlo; [|discriminate].
  destruct (n <=? 65535)%Z eqn:Hhi; [|discriminate].
  apply Z.leb_le in Hlo, Hhi.
  exists host, n.
  destruct (get d "username") as [| | |u| |] eqn:Hu; try discriminate;
    destruct (get d "password") as [| | |pw| |] eqn:Hpw; try discriminate;
    repeat match goal with
           | Hx : (if (256 <? ?x)%Z then _ else _) = Ok _ |- _ =>
               destruct (256 <? x)%Z eqn:?; [discriminate|]
           end;
    repeat match goal with
           | Hx : (256 <? _)%Z = false |- _ => apply Z.ltb_ge in Hx
           end;
    eexists _, _; repeat split; try done; eauto 10.
Qed.

Lemma validate_proxy_keys_ok (p : dict) (keys : list string) (res r : dict) :
  accounts.validate_proxy_keys p keys res = Ok r →
  ∀ key,
    (key ∈ keys ∧ ∃ obj entry, p !! key = Some (VDict obj) ∧ r !! key = Some entry ∧
                               cleaned_endpoint obj entry) ∨
    (key ∈ keys ∧ (p !! key = None ∨ p !! key = Some VNone) ∧ r !! key = res !! key) ∨
    ((key ∉ keys) ∧ r !! key = res !! key).
Proof.
  revert res. induction keys as [|k rest IH]; intros res Hrun key.
  - injection Hrun as <-. right. right. split; [apply not_elem_of_nil | done].
  - simpl in Hrun.
    assert ((p !! k = None ∨ p !! k = Some VNone) ∧
            accounts.validate_proxy_keys p rest res = Ok r ∨
            ∃ obj entry, p !! k = Some (VDict obj) ∧ cleaned_endpoint obj entry ∧
              accounts.validate_proxy_keys p rest (<[k := entry]> res) = Ok r)
      as [[Hskip Hrest]|(obj & entry & Hobj & Hentry & Hrest)].
    { destruct (p !! k) as [v|]; [|left; eauto].
      assert (v = VNone ∨ v ≠ VNone) as [->|Hv] by (destruct v; eauto).
      { left; eauto. }
      assert (∃ entry, accounts._validate_proxy_obj v ("proxy." +:+ k) = Ok entry ∧
                accounts.validate_proxy_keys p rest (<[k := entry]> res) = Ok r)
        as (entry & Hentry & Hrest).
      { destruct v; try done; by apply rbind_ok in Hrun. }
      apply _validate_proxy_obj_ok in Hentry as (obj & -> & Hentry).
      right; eauto. }
    + destruct (IH _ Hrest key) as [(Hin & Hfound)|[(Hin & Hnone & Hsame)|(Hnin & Hsame)]].
      * left. split; [by apply list_elem_of_further | done].
      * right. left. split; [by apply list_elem_of_further | done].
      * destruct (decide (key = k)) as [->|Hne].
        -- right. left. split; [apply list_elem_of_here | done].
        -- right. right. split; [|done]. rewrite not_elem_of_cons. done.
    + destruct (IH _ Hrest key) as [(Hin & Hfound)|[(Hin & Hnone & Hsame)|(Hnin & Hsame)]].
      * left. split; [by apply list_elem_of_further | done].
      * right. left. split; [by apply list_elem_of_further |].
        split; [done|]. rewrite Hsame. apply lookup_insert_ne.
        intros ->. destruct Hnone; congruence.
      * destruct (decide (key = k)) as [->|Hne].
        -- left. split; [apply list_elem_of_here|].
           exists obj, entry. rewrite Hsame, lookup_insert_eq. done.
        -- right. right. split; [by rewrite not_elem_of_cons|].
           by rewrite Hsame, lookup_insert_ne.
Qed.

(** X15.  The proxy map that validate_proxy returns.  Its keys are those
    among http, https and socks5 whose object in the payload is present
    and not None, and under each of them stands an endpoint record: the
    host stripped and not empty, the port a number from 1 to 65535, and
    username and password strings of at most 256 characters, the empty
    string where the payload has none. *)
Theorem validate_proxy_entries (p : dict) (v : value) :
  accounts.validate_proxy (VDict p) = Ok v →
  ∃ r, v = VDict r ∧
    ∀ key,
      match r !! key with
      | Some entry =>
          key ∈ accounts.PROXY_KEYS ∧
          ∃ obj, p !! key = Some (VDict obj) ∧ cleaned_endpoint obj entry
      | None =>
          key ∉ accounts.PROXY_KEYS ∨ p !! key = None ∨ p !! key = Some VNone
      end.
Proof.
  unfold accounts.validate_proxy. intros Hv.
  apply rbind_ok in Hv as (r & Hkeys & [= <-]). exists r. split; [done|].
  intros key.
  destruct (validate_proxy_keys_ok _ _ _ _ Hkeys key)
    as [(Hin & obj & entry & Hobj & -> & Hentry)|[(Hin & Hnone & ->)|(Hnin & ->)]].
  - eauto.
  - rewrite lookup_empty. tauto.
  - rewrite lookup_empty. tauto.
Qed.

End validated.

Section cleaned.
Context `{Platform}.

(** X16.  The dict that validate_account_payload returns, key by key.  It
    holds no key but name, proxy, autostart, default_url, notes and
    version.  The name is the stripped name of the payload, which is not
    empty, the unstripped one being at most 128 characters long; the
    proxy is what validate_proxy makes of the payload's; autostart is a
    boolean; default_url is a stripped string that is empty or starts,
    in lower case, with http:// or https://; notes is a string of at
    most 1024 characters; version is the payload's, an integer.  A full
    payload always gets name, autostart, default_url and notes, a
    partial one only the keys it has itself. *)
Theorem validate_account_payload_fields (p cleaned : dict) (partial : bool) :
  accounts.validate_account_payload (VDict p) partial = Ok cleaned →
  match cleaned !! "name" with
  | Some v => ∃ raw, p !! "name" = Some (VStr raw) ∧ v = VStr (str_strip raw) ∧
                     str_strip raw ≠ EmptyString ∧ (str_len raw ≤ 128)%Z
  | None => partial = true ∧ p !! "name" = None
  end ∧
  match cleaned !! "proxy" with
  | Some v => is_Some (p !! "proxy") ∧ accounts.validate_proxy (get p "proxy") = Ok v
  | None => p !! "proxy" = None
  end ∧
  match cleaned !! "autostart" with
  | Some v => ∃ b, v = VBool b ∧
                   (p !! "autostart" = Some (VBool b) ∨
                    (p !! "autostart" = None ∧ partial = false ∧ b = false))
  | None => partial = true ∧ p !! "autostart" = None
  end ∧
  match cleaned !! "default_url" with
  | Some v => ∃ url, v = VStr url ∧
                (url = EmptyString ∨ String.prefix "http://" (str_lower url) = true
                 ∨ String.prefix "https://" (str_lower url) = true) ∧
                ((p !! "default_url" = Some VNone ∧ url = EmptyString) ∨
                 (∃ raw, p !! "default_url" = Some (VStr raw) ∧ url = str_strip raw) ∨
                 (p !! "default_url" = None ∧ partial = false ∧ url = EmptyString))
  | None => partial = true ∧ p !! "default_url" = None
  end ∧
  match cleaned !! "notes" with
  | Some v => ∃ n, v = VStr n ∧
                ((p !! "notes" = Some VNone ∧ n = EmptyString) ∨
                 (p !! "notes" = Some (VStr n) ∧ (str_len n ≤ 1024)%Z) ∨
                 (p !! "notes" = None ∧ partial = false ∧ n = EmptyString))
  | None => partial = true ∧ p !! "notes" = None
  end ∧
  match cleaned !! "version" with
  | Some v => p !! "version" = Some v ∧ isinstance_int v = true
  | None => p !! "version" = None
  end ∧
  ∀ k, is_Some (cleaned !! k) →
       k ∈ ["name"; "proxy"; "autostart"; "default_url"; "notes"; "version"].
Proof.
  unfold accounts.validate_account_payload. intros Hv.
  rbind_inv. simplify_eq.
  (* name *)
  assert ((∀ k, k ≠ "name" → a !! k = None) ∧
          match a !! "name" with
          | Some v => ∃ raw, p !! "name" = Some (VStr raw) ∧ v = VStr (str_strip raw) ∧
                             str_strip raw ≠ EmptyString ∧ (str_len raw ≤ 128)%Z
          | None => partial = true ∧ p !! "name" = None
          end) as [Hframe0 Hname].
  { clear Ha0 Ha1 Ha2 Ha3 Ha4. unfold has_key, get in Ha.
    destruct (p !! "name") as [v|] eqn:Hp; simpl in Ha.
    - destruct v as [| | |raw| |]; try discriminate.
      case_bool_decide as Hstrip; [discriminate|].
      destruct (128 <? str_len raw)%Z eqn:Hlen; [discriminate|].
      apply Z.ltb_ge in Hlen. injection Ha as <-.
      split; [by intros k Hk; rewrite lookup_insert_ne|].
      rewrite lookup_insert_eq. eauto.
    - destruct partial; simpl in Ha; [|discriminate]. injection Ha as <-. done. }
  (* proxy *)
  assert ((∀ k, k ≠ "proxy" → a0 !! k = a !! k) ∧
          match a0 !! "proxy" with
          | Some v => is_Some (p !! "proxy") ∧ accounts.validate_proxy (get p "proxy") = Ok v
          | None => p !! "proxy" = None
          end) as [Hframe1 Hproxy].
  { clear Ha Ha1 Ha2 Ha3 Ha4. unfold has_key in Ha0.
    destruct (p !! "proxy") as [v|] eqn:Hp; simpl in Ha0.
    - apply rbind_ok in Ha0 as (proxy & Hproxy & [= <-]).
      split; [by intros k Hk; rewrite lookup_insert_ne|].
      rewrite lookup_insert_eq. eauto.
    - injection Ha0 as <-. split; [done|]. by rewrite Hframe0. }
  (* autostart *)
  assert ((∀ k, k ≠ "autostart" → a1 !! k = a0 !! k) ∧
          match a1 !! "autostart" with
          | Some v => ∃ b, v = VBool b ∧
                           (p !! "autostart" = Some (VBool b) ∨
                            (p !! "autostart" = None ∧ partial = false ∧ b = false))
          | None => partial = true ∧ p !! "autostart" = None
          end) as [Hframe2 Hauto].
  { assert (a0 !! "autostart" = None) as Hnone by (by rewrite Hframe1, Hframe0).
    clear Ha Ha0 Ha2 Ha3 Ha4. unfold has_key, get in Ha1.
    destruct (p !! "autostart") as [v|] eqn:Hp; simpl in Ha1.
    - destruct v as [|b| | | |]; try discriminate. injection Ha1 as <-.
      split; [by intros k Hk; rewrite lookup_insert_ne|].
      rewrite lookup_insert_eq. eauto.
    - destruct partial; simpl in Ha1; injection Ha1 as <-.
      + split; [done|]. by rewrite Hnone.
      + split; [by intros k Hk; rewrite lookup_insert_ne|].
        rewrite lookup_insert_eq. eauto 10. }
  (* default_url *)
  assert ((∀ k, k ≠ "default_url" → a2 !! k = a1 !! k) ∧
          match a2 !! "default_url" with
          | Some v => ∃ url, v = VStr url ∧
                (url = EmptyString ∨ String.prefix "http://" (str_lower url) = true
                 ∨ String.prefix "https://" (str_lower url) = true) ∧
                ((p !! "default_url" = Some VNone ∧ url = EmptyString) ∨
                 (∃ raw, p !! "default_url" = Some (VStr raw) ∧ url = str_strip raw) ∨
                 (p !! "default_url" = None ∧ partial = false ∧ url = EmptyString))
          | None => partial = true ∧ p !! "default_url" = None
          end) as [Hframe3 Hurl].
  { assert (a1 !! "default_url" = None) as Hnone
      by (by rewrite Hframe2, Hframe1, Hframe0).
    clear Ha Ha0 Ha1 Ha3 Ha4. unfold has_key, get in Ha2.
    destruct (p !! "default_url") as [v|] eqn:Hp; simpl in Ha2.
    - apply rbind_ok in Ha2 as (url & Hurl & [= <-]).
      split; [by intros k Hk; rewrite lookup_insert_ne|].
      rewrite lookup_insert_eq.
      destruct v as [| | |raw| |]; try discriminate.
      + injection Hurl as <-. exists EmptyString. simpl.
        split; [done|]. split; [by left|]. by left.
      + destruct (decide (str_strip raw = EmptyString)) as [Hempty|Hfull].
        * rewrite Hempty in Hurl. simpl in Hurl. injection Hurl as <-.
          exists EmptyString. split; [done|]. split; [by left|].
          right. left. eauto.
        * rewrite (bool_decide_eq_false_2 _ Hfull) in Hurl. simpl in Hurl.
          destruct (String.prefix "http://" (str_lower (str_strip raw))
                    || String.prefix "https://" (str_lower (str_strip raw))) eqn:Hpre;
            [|discriminate].
          injection Hurl as <-. exists (str_strip raw).
          split.
          { unfold py_or, truthy. by rewrite (bool_decide_eq_false_2 _ Hfull). }
          apply orb_true_iff in Hpre. split; [tauto|]. right. left. eauto.
    - destruct partial; simpl in Ha2; injection Ha2 as <-.
      + split; [done|]. by rewrite Hnone.
      + split; [by intros k Hk; rewrite lookup_insert_ne|].
        rewrite lookup_insert_eq. exists EmptyString.
        split; [done|]. split; [by left|]. right. by right. }
  (* notes *)
  assert ((∀ k, k ≠ "notes" → a3 !! k = a2 !! k) ∧
          match a3 !! "notes" with
          | Some v => ∃ n, v = VStr n ∧
                ((p !! "notes" = Some VNone ∧ n = EmptyString) ∨
                 (p !! "notes" = Some (VStr n) ∧ (str_len n ≤ 1024)%Z) ∨
                 (p !! "notes" = None ∧ partial = false ∧ n = EmptyString))
          | None => partial = true ∧ p !! "notes" = None
          end) as [Hframe4 Hnotes].
  { assert (a2 !! "notes" = None) as Hnone
      by (by rewrite Hframe3, Hframe2, Hframe1, Hframe0).
    clear Ha Ha0 Ha1 Ha2 Ha4. unfold has_key, get in Ha3.
    destruct (p !! "notes") as [v|] eqn:Hp; simpl in Ha3.
    - apply rbind_ok in Ha3 as ([] & Htype & Ha3).
      apply rbind_ok in Ha3 as ([] & Hlen & [= <-]).
      split; [by intros k Hk; rewrite lookup_insert_ne|].
      rewrite lookup_insert_eq.
      destruct v as [| | |n| |]; try discriminate.
      + exists EmptyString. eauto 10.
      + destruct (1024 <? str_len n)%Z eqn:Hn; [discriminate|].
        apply Z.ltb_ge in Hn.
        destruct (decide (n = EmptyString)) as [->|Hfull].
        * exists EmptyString. eauto 10.
        * exists n. split; [|eauto 10].
          unfold py_or, truthy. by rewrite (bool_decide_eq_false_2 _ Hfull).
    - destruct partial; simpl in Ha3; injection Ha3 as <-.
      + split; [done|]. by rewrite Hnone.
      + split; [by intros k Hk; rewrite lookup_insert_ne|].
        rewrite lookup_insert_eq. exists EmptyString. eauto 10. }
  (* version *)
  assert ((∀ k, k ≠ "version" → cleaned !! k = a3 !! k) ∧
          match cleaned !! "version" with
          | Some v => p !! "version" = Some v ∧ isinstance_int v = true
          | None => p !! "version" = None
          end) as [Hframe5 Hversion].
  { assert (a3 !! "version" = None) as Hnone
      by (by rewrite Hframe4, Hframe3, Hframe2, Hframe1, Hframe0).
    clear Ha Ha0 Ha1 Ha2 Ha3. unfold has_key, get in Ha4.
    destruct (p !! "version") as [v|] eqn:Hp; simpl in Ha4.
    - destruct (isinstance_int v) eqn:Hint; [|discriminate]. injection Ha4 as <-.
      split; [by intros k Hk; rewrite lookup_insert_ne|].
      rewrite lookup_insert_eq. done.
    - injection Ha4 as <-. split; [done|]. by rewrite Hnone. }
  split; [by rewrite Hframe5, Hframe4, Hframe3, Hframe2, Hframe1|].
  split; [by rewrite Hframe5, Hframe4, Hframe3, Hframe2|].
  split; [by rewrite Hframe5, Hframe4, Hframe3|].
  split; [by rewrite Hframe5, Hframe4|].
  split; [by rewrite Hframe5|].
  split; [done|].
  intros k [v Hk]. rewrite !elem_of_cons.
  destruct (decide (k = "name")); [tauto|].
  destruct (decide (k = "proxy")); [tauto|].
  destruct (decide (k = "autostart")); [tauto|].
  destruct (decide (k = "default_url")); [tauto|].
  destruct (decide (k = "notes")); [tauto|].
  destruct (decide (k = "version")); [tauto|].
  rewrite Hframe5, Hframe4, Hframe3, Hframe2, Hframe1, Hframe0 in Hk by done. done.
Qed.

End cleaned.

(** ** What an update touches *)

(** X17.  What update_account_obj does to the fields of the account.  On a
    version conflict the dict is what it was.  Otherwise every one of
    name, proxy, autostart, default_url and notes that the patch has
    takes the patch's value, also when the version bump then fails on a
    version that is no number.  In every case the keys outside these and
    version, id and profile_dir among them, are what they were. *)
Theorem update_account_obj_fields (account cleaned final : dict) (check_version : bool)
    (r : result unit) :
  accounts.update_account_obj account cleaned check_version = (final, r) →
  (∀ k, k ∉ accounts.MERGE_KEYS → k ≠ "version" → final !! k = account !! k) ∧
  final !! "id" = account !! "id" ∧
  final !! "profile_dir" = account !! "profile_dir" ∧
  if accounts.version_conflict account cleaned check_version
  then final = account ∧ r = Raise (ValidationError "version conflict" 1007)
  else ∀ k, k ∈ accounts.MERGE_KEYS →
            final !! k = match cleaned !! k with Some v => Some v | None => account !! k end.
Proof.
  unfold accounts.update_account_obj. intros Hupd.
  set (merged := foldl (accounts.merge_key cleaned) account accounts.MERGE_KEYS) in Hupd.
  assert (∀ k, merged !! k =
               if bool_decide (k ∈ accounts.MERGE_KEYS)
               then match cleaned !! k with Some v => Some v | None => account !! k end
               else account !! k) as Hmerged by (intros k; apply lookup_merge).
  clearbody merged.
  assert (∀ k, k ∉ accounts.MERGE_KEYS → k ≠ "version" → final !! k = account !! k) as Hframe.
  { intros k Hk Hv.
    destruct (accounts.version_conflict _ _ _); [by injection Hupd as <- _|].
    destruct (add_int _ _); injection Hupd as <- _.
    - rewrite lookup_insert_ne by done. rewrite Hmerged.
      by rewrite bool_decide_eq_false_2.
    - rewrite Hmerged. by rewrite bool_decide_eq_false_2. }
  split; [done|].
  split; [apply Hframe; [|done]; by apply (bool_decide_unpack _)|].
  split; [apply Hframe; [|done]; by apply (bool_decide_unpack _)|].
  destruct (accounts.version_conflict _ _ _); [by injection Hupd as <- <-|].
  intros k Hk.
  assert (k ≠ "version") as Hne.
  { intros ->. revert Hk. by apply (bool_decide_unpack _). }
  destruct (add_int _ _); injection Hupd as <- _.
  - rewrite lookup_insert_ne by done. rewrite Hmerged.
    by rewrite bool_decide_eq_true_2.
  - rewrite Hmerged. by rewrite bool_decide_eq_true_2.
Qed.

(** ** The autostart batch *)

Section batch.
Context `{Platform}.

Lemma autostart_loop_inv (items started already started' already' : list value)
    (w w' : World) :
  app.autostart_loop items started already w = (w', Ok (started', already')) →
  ∃ s a,
    started' = started ++ s ∧ already' = already ++ a ∧
    s ++ a ≡ₚ autostart_ids items ∧
    sublist s (autostart_ids items) ∧ sublist a (autostart_ids items) ∧
    length (spawned w') = length (spawned w) + length s.
Proof.
  revert started already w.
  induction items as [|item rest IH]; intros started already w Hrun.
  - injection Hrun as <- <- <-. exists [], []. by rewrite !app_nil_r.
  - simpl in Hrun.
    apply bind_ok in Hrun as (wa & flag & Hflag & Hrun).
    apply lift_ok in Hflag as [-> Hflag].
    destruct item as [| | | | |d]; try discriminate.
    injection Hflag as <-. simpl autostart_ids.
    destruct (truthy (get d "autostart")); simpl in Hrun.
    + apply bind_ok in Hrun as (w1 & outcome & Hstart & Hrun).
      apply bind_ok in Hrun as (wb & acc_id & Hid & Hrun).
      apply lift_ok in Hid as [-> Hid].
      assert (get d "id" = acc_id) as ->.
      { unfold getitem in Hid. unfold get. destruct (d !! "id"); simplify_eq/=; done. }
      apply start_account_inv in Hstart. destruct outcome as [[] status].
      * destruct Hstart as (-> & dir & args & _ & _ & _ & _ & Hspawned).
        simpl snd in Hrun. rewrite bool_decide_eq_true_2 in Hrun by done.
        apply IH in Hrun as (s & a & -> & -> & Hperm & Hs & Ha & Hlen).
        exists (acc_id :: s), a.
        split; [by rewrite <- app_assoc|]. split; [done|].
        split; [simpl; by rewrite Hperm|].
        split; [by apply sublist_skip|]. split; [by apply sublist_cons|].
        rewrite Hlen, Hspawned, length_app. simpl. lia.
      * destruct Hstart as (-> & _ & _ & Hspawned).
        simpl snd in Hrun. rewrite bool_decide_eq_false_2 in Hrun by done.
        apply IH in Hrun as (s & a & -> & -> & Hperm & Hs & Ha & Hlen).
        exists s, (acc_id :: a).
        split; [done|]. split; [by rewrite <- app_assoc|].
        split; [by rewrite <- Permutation_middle, Hperm|].
        split; [by apply sublist_cons|]. split; [by apply sublist_skip|].
        by rewrite Hlen, Hspawned.
    + apply IH in Hrun as (s & a & -> & -> & Hperm & Hs & Ha & Hlen). by exists s, a.
Qed.

(** X18.  When the autostart loop comes to its end, the ids it reports as
    started and as already running are, together, the ids of the items
    whose autostart is truthy, each one reported once and each list in
    the order of the store; as many processes have been spawned as ids
    are reported as started.  The endpoint start_all_autostart and the
    script start_autostart.py both run this loop over the loaded
    store. *)
Theorem autostart_reports_every_autostart_account (items started already : list value)
    (w w' : World) :
  app.autostart_loop items [] [] w = (w', Ok (started, already)) →
  started ++ already ≡ₚ autostart_ids items ∧
  sublist started (autostart_ids items) ∧
  sublist already (autostart_ids items) ∧
  length (spawned w') = length (spawned w) + length started.
Proof.
  intros Hrun. apply autostart_loop_inv in Hrun as (s & a & -> & -> & Hrest). done.
Qed.

End batch.

(** ** The start and the stop endpoint on an account of the store *)

Section single.
Context `{Platform}.

(** X19.  Once the store is loaded and holds the account, the start
    endpoint always answers: whatever start_account raises is turned into
    code 1008 with status 500, and then nothing has been spawned;
    otherwise the answer carries the status of start_account, started or
    already_running. *)
Theorem start_endpoint_contains_launch_failure (account_id : string) (items : value)
    (pos : nat) (target : dict) (w w1 : World) :
  accounts.load_accounts w = (w1, Ok items) →
  accounts.find_account items account_id = Ok (Some (pos, target)) →
  ∃ w2 r,
    app.start_account account_id w = (w2, Ok r) ∧
    ((∃ started status,
        accounts.start_account target w1 = (w2, Ok (started, status)) ∧
        r = app.ok_response (VDict {["status" := VStr status]}) ∧
        (status = "started" ∨ status = "already_running")) ∨
     (∃ e,
        accounts.start_account target w1 = (w2, Raise e) ∧
        app.code r = 1008%Z ∧ app.http_status r = 500%Z ∧
        procs w2 = procs w1 ∧ spawned w2 = spawned w1)).
Proof.
  intros Hload Hfind.
  destruct (find_account_found _ _ _ _ Hfind) as [_ Htruthy].
  unfold app.start_account, app.handle_validation_error, app.get_accounts, bind, lift.
  rewrite Hload, Hfind, Htruthy.
  destruct (accounts.start_account target w1) as [w2 [[started status]|e]] eqn:Hstart.
  - exists w2. eexists. split; [done|]. left. exists started, status.
    split; [done|]. split; [done|].
    apply start_account_inv in Hstart. destruct started; [left | right]; apply Hstart.
  - exists w2. eexists. split; [done|]. right. exists e.
    apply start_account_inv in Hstart. destruct Hstart. done.
Qed.

End single.

Section single_stop.
Context `{Platform} `{Signals}.

Lemma stop_account_frame (account : dict) (w w' : World) (r : result (bool * string)) :
  accounts.stop_account account w = (w', r) →
  files w' = files w ∧ dirs w' = dirs w ∧ effects w' = effects w ∧
  ∀ message c, r ≠ Raise (ValidationError message c).
Proof.
  unfold accounts.stop_account. intros Hrun.
  apply bind_inv in Hrun as [(e & Hv & ->)|(wa & v & Hv & Hrun)].
  { unfold lift, getitem in Hv. destruct (account !! "profile_dir"); simplify_eq/=. done. }
  apply lift_ok in Hv as [-> Hv].
  apply bind_inv in Hrun as [(e & Hs & ->)|(wa & dir & Hs & Hrun)].
  { unfold lift in Hs. destruct v; simplify_eq/=; done. }
  apply lift_ok in Hs as [-> Hs].
  apply bind_inv in Hrun as [(e & Hp & ->)|(wa & running & Hp & Hrun)].
  { unfold accounts.is_running, pgrep in Hp. case_bool_decide; simplify_eq/=. done. }
  apply pgrep_inv in Hp as (-> & _ & _).
  destruct running; simpl in Hrun; [|by injection Hrun as <- <-].
  unfold bind at 1, lift at 1 in Hrun. rewrite Hv in Hrun.
  unfold bind at 1, lift at 1 in Hrun. rewrite Hs in Hrun.
  unfold bind at 1, pkill in Hrun. case_bool_decide; [|by injection Hrun as <- <-].
  destruct (pkill_f dir (procs w)) as [killed table]. simpl in Hrun.
  destruct killed; [|by injection Hrun as <- <-].
  unfold bind, lift, getitem in Hrun.
  destruct (account !! "id"); simpl in Hrun; by injection Hrun as <- <-.
Qed.

(** X20.  Once the store is loaded and holds the account, the stop endpoint
    touches no file and no directory.  It answers with the status of
    stop_account, stopped or already_stopped, and with code 1008 and
    status 500 for stop_failed; unlike the start endpoint it catches
    nothing: an exception of stop_account, which is never a
    ValidationError, leaves the view as it is. *)
Theorem stop_endpoint_outcomes (account_id : string) (items : value)
    (pos : nat) (target : dict) (w w1 : World) :
  accounts.load_accounts w = (w1, Ok items) →
  accounts.find_account items account_id = Ok (Some (pos, target)) →
  ∃ w2,
    files w2 = files w1 ∧ dirs w2 = dirs w1 ∧ effects w2 = effects w1 ∧
    ((∃ stopped status,
        accounts.stop_account target w1 = (w2, Ok (stopped, status)) ∧
        (status = "stopped" ∨ status = "already_stopped") ∧
        app.stop_account account_id w
        = (w2, Ok (app.ok_response (VDict {["status" := VStr status]})))) ∨
     (accounts.stop_account target w1 = (w2, Ok (false, "stop_failed")) ∧
      app.stop_account account_id w
      = (w2, Ok (app.api_response 1008 "failed to stop browser"
                   (VDict {["account_id" := VStr account_id]}) 500))) ∨
     (∃ e,
        accounts.stop_account target w1 = (w2, Raise e) ∧
        app.stop_account account_id w = (w2, Raise e))).
Proof.
  intros Hload Hfind.
  destruct (find_account_found _ _ _ _ Hfind) as [_ Htruthy].
  unfold app.stop_account, app.handle_validation_error, app.get_accounts, bind, lift.
  rewrite Hload, Hfind, Htruthy.
  destruct (accounts.stop_account target w1) as [w2 [[stopped status]|e]] eqn:Hstop.
  - exists w2. destruct (stop_account_frame _ _ _ _ Hstop) as (Hf & Hd & He & _).
    split; [done|]. split; [done|]. split; [done|].
    destruct (stop_account_status _ _ _ _ Hstop) as [[= -> ->]|[[= -> ->]|[= -> ->]]].
    + left. exists true, "stopped". eauto.
    + right. left. done.
    + left. exists false, "already_stopped". eauto.
  - exists w2. destruct (stop_account_frame _ _ _ _ Hstop) as (Hf & Hd & He & Hne).
    split; [done|]. split; [done|]. split; [done|].
    right. right. exists e. split; [done|].
    destruct e; try done. by destruct (Hne message code).
Qed.

End single_stop.

(** * The properties on the reference platform

    Each property above that has premises is applied here to a concrete
    account, payload or world of [Sample]. *)

#[local] Existing Instance Sample.platform.
#[local] Existing Instance Sample.signals.

Lemma update_stale_version_conflict_witness :
  Sample.stale_patch !! "version" = Some (VInt 7) ∧
  py_ne (get Sample.alice "version") (VInt 7) = true ∧
  accounts.update_account_obj Sample.alice Sample.stale_patch true
  = (Sample.alice, Raise (ValidationError "version conflict" 1007)).
Proof.
  assert (Sample.stale_patch !! "version" = Some (VInt 7)) as Hv by reflexivity.
  assert (py_ne (get Sample.alice "version") (VInt 7) = true) as Hne by reflexivity.
  split; [exact Hv|]. split; [exact Hne|].
  exact (update_stale_version_conflict Sample.alice Sample.stale_patch (VInt 7) Hv Hne).
Defined.

Lemma version_counts_successful_updates_witness :
  version_of Sample.alice = Some 1%Z ∧
  (∃ final, apply_updates Sample.alice Sample.three_patches = (final, Ok ()) ∧
            version_of final = Some 4%Z).
Proof.
  assert (version_of Sample.alice = Some 1%Z) as Hn by reflexivity.
  split; [exact Hn|].
  exists (apply_updates Sample.alice Sample.three_patches).1.
  assert (apply_updates Sample.alice Sample.three_patches
          = ((apply_updates Sample.alice Sample.three_patches).1, Ok ())) as Hrun
    by (vm_compute; reflexivity).
  split; [exact Hrun|].
  exact (proj1 (proj2 (version_counts_successful_updates
                         Sample.alice _ 1%Z Sample.three_patches Hn Hrun))).
Defined.

Lemma update_never_copies_patch_version_witness :
  ∃ final,
    accounts.update_account_obj Sample.alice {["version" := VInt 1]} true = (final, Ok ()) ∧
    ∃ n, version_of Sample.alice = Some n ∧ final !! "version" = Some (VInt (n + 1)).
Proof.
  exists (accounts.update_account_obj Sample.alice {["version" := VInt 1]} true).1.
  assert (accounts.update_account_obj Sample.alice {["version" := VInt 1]} true
          = ((accounts.update_account_obj Sample.alice {["version" := VInt 1]} true).1, Ok ()))
    as Hupd by (vm_compute; reflexivity).
  split; [exact Hupd|].
  destruct (update_never_copies_patch_version _ _ _ _ Hupd) as (n & Hn & Hv & _).
  exists n. split; [exact Hn | exact Hv].
Defined.


Lemma created_account_version_and_profile_dir_witness :
  accounts.validate_account_payload Sample.new_payload false = Ok Sample.new_cleaned ∧
  ∃ account profile_dir,
    accounts.build_account 1700000000123 (Byte.x0a, Byte.xff, Byte.x3c) Sample.new_cleaned
    = Ok account ∧
    account !! "version" = Some (VInt 1) ∧
    account !! "id" = Some (VStr "acc-1700000000123-0aff3c") ∧
    account !! "profile_dir" = Some (VStr profile_dir) ∧
    "acc-1700000000123-0aff3c" ∈ path_components profile_dir.
Proof.
  assert (accounts.validate_account_payload Sample.new_payload false
          = Ok Sample.new_cleaned) as Hv by (vm_compute; reflexivity).
  split; [exact Hv|].
  destruct (created_account_version_and_profile_dir Sample.new_payload Sample.new_cleaned
              1700000000123 (Byte.x0a, Byte.xff, Byte.x3c) Hv)
    as (account & profile_dir & Hb & Hver & Hid & Hdir & Hin & _).
  exists account, profile_dir. repeat split; assumption.
Defined.


Lemma update_without_version_skips_check_witness :
  ({["notes" := VStr "hello"]} : dict) !! "version" = None ∧
  accounts.update_account_obj Sample.alice {["notes" := VStr "hello"]} true
  = accounts.update_account_obj Sample.alice {["notes" := VStr "hello"]} false.
Proof.
  assert (({["notes" := VStr "hello"]} : dict) !! "version" = None) as Hv by reflexivity.
  split; [exact Hv|].
  exact (proj1 (update_without_version_skips_check Sample.alice _ Hv)).
Defined.



Lemma start_twice_started_then_running_witness :
  Sample.alice !! "profile_dir" = Some (VStr "/data/profiles/acc-1-aaaaaa") ∧
  existsb (cmdline_matches "/data/profiles/acc-1-aaaaaa") (procs Sample.fresh) = false ∧
  ∃ w1 w2,
    accounts.start_account Sample.alice Sample.fresh = (w1, Ok (true, "started")) ∧
    accounts.start_account Sample.alice w1 = (w2, Ok (false, "already_running")) ∧
    procs w2 = procs w1 ∧
    spawned w2 = spawned w1.
Proof.
  assert (Sample.alice !! "profile_dir" = Some (VStr "/data/profiles/acc-1-aaaaaa"))
    as Hdir by reflexivity.
  assert (existsb (cmdline_matches "/data/profiles/acc-1-aaaaaa") (procs Sample.fresh) = false)
    as Hstopped by reflexivity.
  assert (∀ args,
            all_str (accounts.launch_cmd Sample.alice (VStr "/data/profiles/acc-1-aaaaaa"))
            = Ok args →
            cmdline_matches "/data/profiles/acc-1-aaaaaa" (cmdline args) = true) as Hmatch.
  { intros args Hargs. vm_compute in Hargs. injection Hargs as <-. reflexivity. }
  assert (accounts.start_account Sample.alice Sample.fresh
          = ((accounts.start_account Sample.alice Sample.fresh).1, Ok (true, "started")))
    as Hfirst by (vm_compute; reflexivity).
  split; [exact Hdir|]. split; [exact Hstopped|].
  destruct (start_twice_started_then_running _ _ _ _ _ Hdir Hstopped Hmatch Hfirst)
    as (_ & _ & w2 & Hsecond & _ & Hprocs & Hspawned).
  exists (accounts.start_account Sample.alice Sample.fresh).1, w2.
  split; [exact Hfirst|]. split; [exact Hsecond|]. split; [exact Hprocs | exact Hspawned].
Defined.

(** C5, at a failing input.  The store holds alice, carol and bob, with
    autostart set for alice and bob, and a regular file stands where
    alice's profile directory should be.  start_account raises for alice,
    and both batch loops end with that exception: bob, who would start in
    this very world, is never started, and no list of outcomes is
    returned.  The endpoint that starts a single account answers the same
    failure with code 1008.  Without the obstacle the batch starts alice
    and bob and leaves carol alone. *)
Theorem autostart_batch_aborts_on_launch_failure :
  (∃ w', app.start_all_autostart Sample.blocked_world
         = (w', Raise (FileExistsError "/data/profiles/acc-1-aaaaaa")) ∧
         spawned w' = [] ∧ procs w' = []) ∧
  (∃ w', start_autostart.main Sample.blocked_world
         = (w', Raise (FileExistsError "/data/profiles/acc-1-aaaaaa")) ∧
         spawned w' = [] ∧ procs w' = []) ∧
  (∃ w', accounts.start_account Sample.bob Sample.blocked_world
         = (w', Ok (true, "started"))) ∧
  (∃ w' r, app.start_account "acc-1-aaaaaa" Sample.blocked_world = (w', Ok r) ∧
           app.code r = 1008%Z) ∧
  (∃ w', app.start_all_autostart (Sample.with_store Sample.three_accounts Sample.fresh)
         = (w', Ok (app.ok_response
                      (VDict (<["started" := VList [VStr "acc-1-aaaaaa"; VStr "acc-2-bbbbbb"]]>
                              {["already_running" := VList []]})))) ∧
         spawned w' = [["firefox-esr"; "--no-remote"; "--profile"; "/data/profiles/acc-1-aaaaaa"];
                       ["firefox-esr"; "--no-remote"; "--profile"; "/data/profiles/acc-2-bbbbbb"]]).
Proof.
  split; [|split; [|split; [|split]]].
  - exists (app.start_all_autostart Sample.blocked_world).1.
    repeat split; vm_compute; reflexivity.
  - exists (start_autostart.main Sample.blocked_world).1.
    repeat split; vm_compute; reflexivity.
  - exists (accounts.start_account Sample.bob Sample.blocked_world).1.
    vm_compute. reflexivity.
  - exists (app.start_account "acc-1-aaaaaa" Sample.blocked_world).1.
    exists (app.api_response 1008 "failed to launch browser"
              (VDict {["account_id" := VStr "acc-1-aaaaaa"]}) 500).
    split; vm_compute; reflexivity.
  - exists (app.start_all_autostart (Sample.with_store Sample.three_accounts Sample.fresh)).1.
    split; vm_compute; reflexivity.
Qed.

Lemma without_id_removes_every_match_witness :
  app.without_id Sample.doubled "acc-1-aaaaaa" = Ok [VDict Sample.bob] ∧
  accounts.find_account (VList [VDict Sample.bob]) "acc-1-aaaaaa" = Ok None.
Proof.
  assert (app.without_id Sample.doubled "acc-1-aaaaaa" = Ok [VDict Sample.bob]) as Hkept
    by (vm_compute; reflexivity).
  split; [exact Hkept|].
  exact (proj2 (proj2 (without_id_removes_every_match _ _ _ Hkept))).
Defined.




Lemma rejected_payload_changes_nothing_witness :
  accounts.validate_account_payload (py_or (VDict {["name" := VInt 3]}) (VDict ∅)) false
  = Raise (ValidationError "name is required" 1001) ∧
  ∃ message,
    app.create_account (VDict {["name" := VInt 3]}) 1700000000123
      (Byte.x0a, Byte.xff, Byte.x3c) Sample.fresh
    = (Sample.fresh, Ok (app.api_response 1001 message VNone 400)).
Proof.
  assert (accounts.validate_account_payload (py_or (VDict {["name" := VInt 3]}) (VDict ∅)) false
          = Raise (ValidationError "name is required" 1001)) as Hval
    by (vm_compute; reflexivity).
  split; [exact Hval|].
  destruct (rejected_payload_changes_nothing _ _ _ Hval) as (message & _ & Hcreate & _).
  exists message. exact (Hcreate eq_refl _ _ _).
Defined.


Lemma unknown_account_answers_1002_witness :
  ∃ w1,
    accounts.load_accounts Sample.settled_world = (w1, Ok (VList Sample.two_accounts)) ∧
    accounts.find_account (VList Sample.two_accounts) "ghost" = Ok None ∧
    app.get_account "ghost" Sample.settled_world = (w1, Ok app.not_found).
Proof.
  exists (accounts.load_accounts Sample.settled_world).1.
  assert (accounts.load_accounts Sample.settled_world
          = ((accounts.load_accounts Sample.settled_world).1, Ok (VList Sample.two_accounts)))
    as Hload by (vm_compute; reflexivity).
  assert (accounts.find_account (VList Sample.two_accounts) "ghost" = Ok None) as Hfind
    by (vm_compute; reflexivity).
  split; [exact Hload|]. split; [exact Hfind|].
  exact (proj1 (unknown_account_answers_1002 _ _ _ _ Hload Hfind)).
Defined.

Lemma delete_account_found_witness :
  data_dirs_available Sample.settled_world ∧
  (accounts.ACCOUNTS_FILE ∉ dirs Sample.settled_world) ∧
  app.without_id Sample.two_accounts "acc-1-aaaaaa" = Ok [VDict Sample.bob] ∧
  ∃ w2,
    app.delete_account "acc-1-aaaaaa" (Some "TRUE") Sample.settled_world
    = (w2, Ok (app.ok_response
                 (VDict (<["result" := VStr "deleted"]>
                         {["delete_profile" := VBool true]})))) ∧
    effects w2 = [EWrite accounts.ACCOUNTS_FILE (Json (VList [VDict Sample.bob]));
                  ERmtree "/data/profiles/acc-1-aaaaaa"] ∧
    "/data/profiles/acc-1-aaaaaa" ∉ dirs w2.
Proof.
  assert (data_dirs_available Sample.settled_world) as Hav.
  { repeat split; [discriminate | reflexivity..]. }
  assert (accounts.ACCOUNTS_FILE ∉ dirs Sample.settled_world) as Hnd.
  { apply (bool_decide_unpack _). by vm_compute. }
  assert (accounts.load_accounts Sample.settled_world
          = ((accounts.load_accounts Sample.settled_world).1, Ok (VList Sample.two_accounts)))
    as Hload by (vm_compute; reflexivity).
  assert (accounts.find_account (VList Sample.two_accounts) "acc-1-aaaaaa"
          = Ok (Some (0, Sample.alice))) as Hfind by (vm_compute; reflexivity).
  assert (app.without_id Sample.two_accounts "acc-1-aaaaaa" = Ok [VDict Sample.bob])
    as Hkept by (vm_compute; reflexivity).
  assert (Sample.alice !! "profile_dir" = Some (VStr "/data/profiles/acc-1-aaaaaa"))
    as Hdir by reflexivity.
  split; [exact Hav|]. split; [exact Hnd|]. split; [exact Hkept|].
  destruct (delete_account_found "acc-1-aaaaaa" _ (Some "TRUE") _ _ _ _ _ _
              Hav Hnd Hload Hfind Hkept Hdir)
    as (w2 & flag & Hflag & Hrun & Heff & Hgone & _).
  assert (flag = true) as -> by (rewrite Hflag; vm_compute; reflexivity).
  exists w2. split; [exact Hrun|]. split; [|exact (Hgone eq_refl)].
  rewrite Heff. vm_compute. reflexivity.
Defined.

Lemma start_account_spawns_iff_started_witness :
  is_Some (Sample.alice !! "id") ∧
  ∃ w',
    accounts.start_account Sample.alice Sample.fresh = (w', Ok (true, "started")) ∧
    spawned w' = [["firefox-esr"; "--no-remote"; "--profile"; "/data/profiles/acc-1-aaaaaa"]].
Proof.
  assert (is_Some (Sample.alice !! "id")) as Hid by (eexists; reflexivity).
  assert (accounts.start_account Sample.alice Sample.fresh
          = ((accounts.start_account Sample.alice Sample.fresh).1, Ok (true, "started")))
    as Hrun by (vm_compute; reflexivity).
  split; [exact Hid|].
  exists (accounts.start_account Sample.alice Sample.fresh).1. split; [exact Hrun|].
  destruct (start_account_spawns_iff_started _ _ _ _ Hid Hrun)
    as [(_ & dir & args & Hdir & _ & Hargs & _ & Hspawned)|(_ & _ & [(e & He)|(He & _)])].
  - rewrite Hspawned. injection Hdir as <-. injection Hargs as <-. reflexivity.
  - discriminate He.
  - discriminate He.
Defined.

Lemma ensure_profile_idempotent_witness :
  ∃ w1 w2,
    accounts.ensure_profile Sample.alice Sample.fresh = (w1, Ok ()) ∧
    accounts.ensure_profile Sample.alice w1 = (w2, Ok ()) ∧
    files w2 = files w1 ∧ dirs w2 = dirs w1.
Proof.
  assert (accounts.ensure_profile Sample.alice Sample.fresh
          = ((accounts.ensure_profile Sample.alice Sample.fresh).1, Ok ())) as Hrun
    by (vm_compute; reflexivity).
  destruct (ensure_profile_idempotent _ _ _ Hrun) as (w2 & Hagain & Hfiles & Hdirs & _).
  exists (accounts.ensure_profile Sample.alice Sample.fresh).1, w2.
  split; [exact Hrun|]. split; [exact Hagain|]. split; [exact Hfiles | exact Hdirs].
Defined.

Lemma stop_account_outcomes_witness :
  ∃ w',
    accounts.stop_account Sample.alice Sample.running_world = (w', Ok (true, "stopped")) ∧
    files w' = files Sample.running_world ∧ effects w' = [].
Proof.
  assert (accounts.stop_account Sample.alice Sample.running_world
          = ((accounts.stop_account Sample.alice Sample.running_world).1, Ok (true, "stopped")))
    as Hrun by (vm_compute; reflexivity).
  exists (accounts.stop_account Sample.alice Sample.running_world).1. split; [exact Hrun|].
  destruct (stop_account_outcomes _ _ _ _ Hrun) as (dir & _ & Hfiles & _ & Heff & _).
  split; [exact Hfiles | exact Heff].
Defined.

Lemma account_launcher_exit_status_witness :
  ∃ w',
    account_launcher.main "stop" "acc-1-aaaaaa" Sample.running_world
    = (w', Ok (0%Z, (account_launcher.Stdout, "stopped"))) ∧
    ((0 = 1)%Z ∧ account_launcher.Stdout = account_launcher.Stderr ∧
     "stopped" = "account " +:+ "acc-1-aaaaaa" +:+ " not found" ∧
     (∃ items, accounts.load_accounts Sample.running_world = (w', Ok items) ∧
               accounts.find_account items "acc-1-aaaaaa" = Ok None) ∨
     account_launcher.Stdout = account_launcher.Stdout ∧
     (if bool_decide ("stop" = "start")
      then (0 = 0)%Z ∧ ("stopped" = "started" ∨ "stopped" = "already_running")
      else ((0 = 0)%Z ∧ ("stopped" = "stopped" ∨ "stopped" = "already_stopped")) ∨
           ((0 = 1)%Z ∧ "stopped" = "stop_failed"))).
Proof.
  assert (account_launcher.main "stop" "acc-1-aaaaaa" Sample.running_world
          = ((account_launcher.main "stop" "acc-1-aaaaaa" Sample.running_world).1,
             Ok (0%Z, (account_launcher.Stdout, "stopped")))) as Hrun
    by (vm_compute; reflexivity).
  exists (account_launcher.main "stop" "acc-1-aaaaaa" Sample.running_world).1.
  split; [exact Hrun|].
  exact (account_launcher_exit_status _ _ _ _ _ _ _ Hrun).
Defined.

Lemma validate_proxy_entries_witness :
  accounts.validate_proxy (VDict Sample.padded_proxy)
  = Ok (VDict {["http" := Sample.proxy_entry "10.0.0.1" 8080]}) ∧
  ("http" ∈ accounts.PROXY_KEYS) ∧
  ∃ obj, Sample.padded_proxy !! "http" = Some (VDict obj) ∧
         cleaned_endpoint obj (Sample.proxy_entry "10.0.0.1" 8080).
Proof.
  assert (accounts.validate_proxy (VDict Sample.padded_proxy)
          = Ok (VDict {["http" := Sample.proxy_entry "10.0.0.1" 8080]})) as Hv
    by (vm_compute; reflexivity).
  split; [exact Hv|].
  destruct (validate_proxy_entries _ _ Hv) as (r & Hr & Hkeys).
  injection Hr as <-. exact (Hkeys "http").
Defined.

Lemma validate_account_payload_fields_witness :
  accounts.validate_account_payload Sample.new_payload false = Ok Sample.new_cleaned ∧
  ∀ k, is_Some (Sample.new_cleaned !! k) →
       k ∈ ["name"; "proxy"; "autostart"; "default_url"; "notes"; "version"].
Proof.
  assert (accounts.validate_account_payload Sample.new_payload false
          = Ok Sample.new_cleaned) as Hv by (vm_compute; reflexivity).
  split; [exact Hv|].
  exact (proj2 (proj2 (proj2 (proj2 (proj2 (proj2
           (validate_account_payload_fields _ _ _ Hv))))))).
Defined.

Lemma update_account_obj_fields_witness :
  ∃ final,
    accounts.update_account_obj Sample.alice Sample.notes_patch true = (final, Ok ()) ∧
    final !! "id" = Sample.alice !! "id" ∧
    final !! "profile_dir" = Sample.alice !! "profile_dir" ∧
    final !! "notes" = Some (VStr "hello").
Proof.
  assert (accounts.update_account_obj Sample.alice Sample.notes_patch true
          = ((accounts.update_account_obj Sample.alice Sample.notes_patch true).1, Ok ()))
    as Hupd by (vm_compute; reflexivity).
  exists (accounts.update_account_obj Sample.alice Sample.notes_patch true).1.
  split; [exact Hupd|].
  destruct (update_account_obj_fields _ _ _ _ _ Hupd) as (_ & Hid & Hdir & Hmerged).
  split; [exact Hid|]. split; [exact Hdir|].
  change (accounts.version_conflict Sample.alice Sample.notes_patch true) with false
    in Hmerged.
  refine (Hmerged "notes" _). apply (bool_decide_unpack _). vm_compute. exact I.
Defined.

Lemma autostart_reports_every_autostart_account_witness :
  ∃ w',
    app.autostart_loop Sample.three_accounts [] [] Sample.fresh
    = (w', Ok ([VStr "acc-1-aaaaaa"; VStr "acc-2-bbbbbb"], [])) ∧
    length (spawned w') = 2.
Proof.
  assert (app.autostart_loop Sample.three_accounts [] [] Sample.fresh
          = ((app.autostart_loop Sample.three_accounts [] [] Sample.fresh).1,
             Ok ([VStr "acc-1-aaaaaa"; VStr "acc-2-bbbbbb"], []))) as Hrun
    by (vm_compute; reflexivity).
  exists (app.autostart_loop Sample.three_accounts [] [] Sample.fresh).1.
  split; [exact Hrun|].
  destruct (autostart_reports_every_autostart_account _ _ _ _ _ Hrun) as (_ & _ & _ & Hlen).
  exact Hlen.
Defined.

Lemma start_endpoint_contains_launch_failure_witness :
  ∃ w1 w2 r,
    accounts.load_accounts Sample.blocked_world = (w1, Ok (VList Sample.three_accounts)) ∧
    accounts.find_account (VList Sample.three_accounts) "acc-1-aaaaaa"
    = Ok (Some (0, Sample.alice)) ∧
    app.start_account "acc-1-aaaaaa" Sample.blocked_world = (w2, Ok r) ∧
    app.code r = 1008%Z ∧ spawned w2 = spawned w1.
Proof.
  assert (accounts.load_accounts Sample.blocked_world
          = ((accounts.load_accounts Sample.blocked_world).1, Ok (VList Sample.three_accounts)))
    as Hload by (vm_compute; reflexivity).
  assert (accounts.find_account (VList Sample.three_accounts) "acc-1-aaaaaa"
          = Ok (Some (0, Sample.alice))) as Hfind by (vm_compute; reflexivity).
  destruct (start_endpoint_contains_launch_failure _ _ _ _ _ _ Hload Hfind)
    as (w2 & r & Hrun & Hcases).
  exists (accounts.load_accounts Sample.blocked_world).1, w2, r.
  split; [exact Hload|]. split; [exact Hfind|]. split; [exact Hrun|].
  destruct Hcases as [(started & status & Hstart & _)|(e & _ & Hcode & _ & _ & Hspawned)].
  - assert ((accounts.start_account Sample.alice
               (accounts.load_accounts Sample.blocked_world).1).2
            = Raise (FileExistsError "/data/profiles/acc-1-aaaaaa")) as Hraise
      by (vm_compute; reflexivity).
    rewrite Hstart in Hraise. discriminate Hraise.
  - split; [exact Hcode | exact Hspawned].
Defined.

Lemma stop_endpoint_outcomes_witness :
  ∃ w1 w2,
    accounts.load_accounts Sample.running_world = (w1, Ok (VList [VDict Sample.alice])) ∧
    accounts.find_account (VList [VDict Sample.alice]) "acc-1-aaaaaa"
    = Ok (Some (0, Sample.alice)) ∧
    app.stop_account "acc-1-aaaaaa" Sample.running_world
    = (w2, Ok (app.ok_response (VDict {["status" := VStr "stopped"]}))) ∧
    files w2 = files w1 ∧ effects w2 = effects w1.
Proof.
  assert (accounts.load_accounts Sample.running_world
          = ((accounts.load_accounts Sample.running_world).1, Ok (VList [VDict Sample.alice])))
    as Hload by (vm_compute; reflexivity).
  assert (accounts.find_account (VList [VDict Sample.alice]) "acc-1-aaaaaa"
          = Ok (Some (0, Sample.alice))) as Hfind by (vm_compute; reflexivity).
  destruct (stop_endpoint_outcomes _ _ _ _ _ _ Hload Hfind)
    as (w2 & Hfiles & _ & Heff & Hcases).
  exists (accounts.load_accounts Sample.running_world).1, w2.
  split; [exact Hload|]. split; [exact Hfind|].
  assert ((accounts.stop_account Sample.alice (accounts.load_accounts Sample.running_world).1).2
          = Ok (true, "stopped")) as Hstopped by (vm_compute; reflexivity).
  destruct Hcases as [(stopped & status & Hstop & _ & Hrun)|[(Hstop & _)|(e & Hstop & _)]].
  - rewrite Hstop in Hstopped. injection Hstopped as -> ->.
    split; [exact Hrun|]. split; [exact Hfiles | exact Heff].
  - rewrite Hstop in Hstopped. discriminate Hstopped.
  - rewrite Hstop in Hstopped. discriminate Hstopped.
Defined.
